(** * WikiSniffer: a shallow embedding of wikisniffer.js and of the
      stand-alone demo script, with the properties of its specification.

    The program is glue code over three libraries: the JavaScript string
    built-ins, Node's [path] and [fs/promises] modules and Playwright.
    The built-ins are modelled as functions on UTF-16 code units; the
    outside world (browser, file system, clock) is an oracle that may
    reject any call, so that every [try]/[catch] of the source is exercised. *)

From Stdlib Require Import ZArith NArith List Bool Lia.
From stdpp Require Import base strings list gmap.

Local Open Scope N_scope.

(* ===================================================================== *)
(** ** JavaScript strings                                                 *)
(* ===================================================================== *)

(** A JavaScript string is a sequence of 16-bit code units. *)
Abbreviation jsstring := (list N) (only parsing).

Module JS.

(** ASCII literals of the source, as code units. *)
Definition lit (s : string) : jsstring :=
  map Ascii.N_of_ascii (String.list_ascii_of_string s).

Definition isDigit (c : N) : bool := (48 <=? c) && (c <=? 57).
Definition isUpper (c : N) : bool := (65 <=? c) && (c <=? 90).
Definition isLower (c : N) : bool := (97 <=? c) && (c <=? 122).

(** The class [[a-z0-9]] under the [i] flag and without the [u] flag:
    case folding of the regular expression engine never identifies a code
    unit above 127 with one below 128, so the class is exactly
    [[A-Za-z0-9]]. *)
Definition isAlnum (c : N) : bool := isLower c || isUpper c || isDigit c.

Definition underscore : N := 95.

(** [s.replace(/[...]/g, r)] for a class matching single code units and a
    one-code-unit replacement: every matching code unit is replaced. *)
Definition replaceAll (matches : N -> bool) (r : N) (s : jsstring) : jsstring :=
  map (fun c => if matches c then r else c) s.

Definition asciiLower (c : N) : N := if isUpper c then c + 32 else c.

Definition isAscii (c : N) : bool := c <? 128.

(** [s.toLowerCase()]. On a string of ASCII code units it lower-cases
    [A-Z]; on anything else the Unicode tables decide, which are taken as
    the parameter [unicodeLower]. *)
Definition toLowerCase (unicodeLower : jsstring -> jsstring) (s : jsstring)
  : jsstring :=
  if forallb isAscii s then map asciiLower s else unicodeLower s.

(** WhiteSpace and LineTerminator code units of ECMAScript, the ones
    [trim] strips. *)
Definition isWhiteSpace (c : N) : bool :=
  ((9 <=? c) && (c <=? 13)) || (c =? 32) || (c =? 160) || (c =? 5760)
  || ((8192 <=? c) && (c <=? 8202)) || (c =? 8232) || (c =? 8233)
  || (c =? 8239) || (c =? 8287) || (c =? 12288) || (c =? 65279).

Fixpoint trimStart (s : jsstring) : jsstring :=
  match s with
  | [] => []
  | c :: s' => if isWhiteSpace c then trimStart s' else s
  end.

Definition trimEnd (s : jsstring) : jsstring := rev (trimStart (rev s)).

Definition trim (s : jsstring) : jsstring := trimEnd (trimStart s).

(** [s.split(sep)] for a separator of one code unit. The result is never
    empty: [''.split(sep)] is [['']]. *)
Fixpoint split (sep : N) (s : jsstring) : list jsstring :=
  match s with
  | [] => [[]]
  | c :: s' =>
      if c =? sep then [] :: split sep s'
      else match split sep s' with
           | [] => [[c]]
           | piece :: pieces => (c :: piece) :: pieces
           end
  end.

(** [pieces.join(sep)]. *)
Fixpoint join (sep : jsstring) (pieces : list jsstring) : jsstring :=
  match pieces with
  | [] => []
  | [p] => p
  | p :: ps => p ++ sep ++ join sep ps
  end.

(** [a[0]] on an array of strings ([undefined] cannot arise after
    [split]; it is rendered as the empty string). *)
Definition first (a : list jsstring) : jsstring := hd [] a.

(** Truthiness of a string-or-null value, as used by [!!result]. *)
Definition truthy (v : option jsstring) : bool :=
  match v with
  | None => false
  | Some [] => false
  | Some (_ :: _) => true
  end.

Definition endsWith (suffix s : jsstring) : Prop := exists p, s = p ++ suffix.
Definition startsWith (prefix s : jsstring) : Prop := exists r, s = prefix ++ r.

End JS.

(* ===================================================================== *)
(** ** Node's [path] module (POSIX flavour)                               *)
(* ===================================================================== *)

Module Path.

Definition slash : N := 47.
Definition dot : jsstring := [46].
Definition dotdot : jsstring := [46; 46].

Definition seq_eqb (a b : jsstring) : bool := bool_decide (a = b).

(** One segment of [normalizeString]: empty and [.] segments are dropped,
    [..] removes the segment before it, or is kept when there is none and
    the path is relative. The stack holds the segments kept so far, the
    last one first. *)
Definition normStep (allowAboveRoot : bool) (stack : list jsstring)
  (seg : jsstring) : list jsstring :=
  if seq_eqb seg [] || seq_eqb seg dot then stack
  else if seq_eqb seg dotdot then
    match stack with
    | top :: rest =>
        if seq_eqb top dotdot
        then (if allowAboveRoot then dotdot :: stack else stack)
        else rest
    | [] => if allowAboveRoot then [dotdot] else []
    end
  else seg :: stack.

Definition normalizeString (p : jsstring) (allowAboveRoot : bool) : jsstring :=
  JS.join [slash]
    (rev (fold_left (normStep allowAboveRoot) (JS.split slash p) [])).

Definition isAbsolute (p : jsstring) : bool :=
  match p with
  | c :: _ => c =? slash
  | [] => false
  end.

Definition trailingSeparator (p : jsstring) : bool :=
  match rev p with
  | c :: _ => c =? slash
  | [] => false
  end.

Definition normalize (p : jsstring) : jsstring :=
  match p with
  | [] => dot
  | _ =>
      let q := normalizeString p (negb (isAbsolute p)) in
      match q with
      | [] =>
          if isAbsolute p then [slash]
          else if trailingSeparator p then dot ++ [slash] else dot
      | _ =>
          let q' := if trailingSeparator p then q ++ [slash] else q in
          if isAbsolute p then slash :: q' else q'
      end
  end.

(** [path.join(a, b)]: empty arguments are skipped, the rest is joined
    with a slash and normalized. *)
Definition join (a b : jsstring) : jsstring :=
  match a, b with
  | [], [] => dot
  | [], _ => normalize b
  | _, [] => normalize a
  | _, _ => normalize (a ++ slash :: b)
  end.

(** A file name: one path segment that is a name. *)
Definition isName (f : jsstring) : Prop :=
  ~ In slash f /\ f <> [] /\ f <> dot /\ f <> dotdot.

(** The stacks [normStep] builds: names, above a run of [..] that only a
    relative path can have. *)
Fixpoint settledStack (allowAboveRoot : bool) (stack : list jsstring) : Prop :=
  match stack with
  | [] => True
  | top :: rest =>
      (isName top
       \/ (top = dotdot /\ allowAboveRoot = true
           /\ Forall (fun seg => seg = dotdot) rest))
      /\ settledStack allowAboveRoot rest
  end.

Definition root (absolute : bool) : jsstring :=
  if absolute then [slash] else [].

(** A normalized path that names an entry: its segments, joined. *)
Definition settled (p : jsstring) : Prop :=
  exists absolute stack,
    stack <> [] /\ settledStack (negb absolute) stack
    /\ p = root absolute ++ JS.join [slash] (rev stack).

(** [path.basename(p)]: the last segment, trailing slashes ignored. *)
Definition basename (p : jsstring) : jsstring :=
  List.last
    (List.filter (fun seg => negb (seq_eqb seg [])) (JS.split slash p)) [].

End Path.

(* ===================================================================== *)
(** ** [Date.prototype.toISOString]                                       *)
(* ===================================================================== *)

Module JSDate.

(** The UTC fields of a time value. *)
Record Date := {
  year : Z;
  month : N;      (* 1..12 *)
  day : N;        (* 1..31 *)
  hours : N;
  minutes : N;
  seconds : N;
  millis : N
}.

Definition digit (n : N) : N := 48 + n mod 10.

Definition pad2 (n : N) : jsstring := [digit (n / 10); digit n].
Definition pad3 (n : N) : jsstring := [digit (n / 100); digit (n / 10); digit n].
Definition pad4 (n : N) : jsstring :=
  [digit (n / 1000); digit (n / 100); digit (n / 10); digit n].
Definition pad6 (n : N) : jsstring :=
  [digit (n / 100000); digit (n / 10000); digit (n / 1000);
   digit (n / 100); digit (n / 10); digit n].

(** Years 0..9999 are written with four digits, the others with a sign
    and six digits. *)
Definition isoYear (y : Z) : jsstring :=
  if ((0 <=? y) && (y <=? 9999))%Z then pad4 (Z.to_N y)
  else (if (y <? 0)%Z then 45 else 43) :: pad6 (Z.abs_N y).

Definition toISOString (d : Date) : jsstring :=
  isoYear (year d) ++ [45] ++ pad2 (month d) ++ [45] ++ pad2 (day d)
  ++ [84] ++ pad2 (hours d) ++ [58] ++ pad2 (minutes d) ++ [58]
  ++ pad2 (seconds d) ++ [46] ++ pad3 (millis d) ++ [90].

(** The calendar day: the part of the ISO string before the [T]. *)
Definition isoDay (d : Date) : jsstring :=
  isoYear (year d) ++ [45] ++ pad2 (month d) ++ [45] ++ pad2 (day d).

End JSDate.


(* ===================================================================== *)
(** ** The outside world: browser, file system, console, clock            *)
(* ===================================================================== *)

Module World.

(** A thrown JavaScript error; only its [message] is ever read. *)
Record Exn := { message : jsstring }.

(** The awaited calls of the two scripts into Playwright and
    [node:fs/promises]. *)
Variant Call :=
  | Launch (headless : bool) (slowMo : N)
  | NewContext
  | NewPage
  | Goto (url : jsstring)
  | Fill (selector text : jsstring)
  | Press (key : jsstring)
  | WaitForSelector (selector : jsstring) (timeout : option N)
  | Click (selector : jsstring)
  | WaitForLoadState (state : jsstring)
  | PageUrl
  | Wheel (deltaX deltaY : Z)
  | WaitForTimeout (ms : N)
  | Screenshot (path : jsstring) (fullPage : bool)
  | BrowserClose
  | Access (path : jsstring)
  | Mkdir (path : jsstring) (recursive : bool)
  | ReadFile (path : jsstring).

(** A call resolves with a payload (the page URL, the bytes of an image,
    the text of a file; empty where the source ignores it) or rejects. *)
Variant Resp :=
  | Resolved (payload : jsstring)
  | Rejected (e : Exn).

(** The console lines of the source, one constructor per template. *)
Variant Msg :=
  | MLaunching
  | MCreatedDir (dir : jsstring)
  | MSearching (term : jsstring)
  | MLoaded (url : jsstring)
  | MScrolling
  | MSaved (filename : jsstring)
  | MErrorProcessing (term msg : jsstring)
  | MErrorShotSaved (errorFilename : jsstring)
  | MNoErrorShot
  | MReading (filePath : jsstring)
  | MFound (n : nat)
  | MProcessing (i n : nat) (term : jsstring)
  | MWaiting
  | MSummary
  | MRule (width : N)
  | MSuccessful (k n : nat)
  | MFailed (k n : nat)
  | MSavedHeader
  | MBullet (text : jsstring)
  | MFailedHeader
  | MAllDone
  | MErrorReading (msg : jsstring)
  | MClosing
  | MUsage
  | MSingle
  | MFatal (error : Exn)
  | MUncaught (error : Exn)
  | MDemoSaved.

Variant Event :=
  | Called (c : Call) (r : Resp)
  | ConsoleLog (m : Msg)
  | ConsoleError (m : Msg).

(** An entry of the file system. The content of a file is its text as
    [readFile(_, 'utf8')] decodes it, or the bytes of an image. *)
Variant Node :=
  | Dir
  | File (content : jsstring).

(** What the run does not control: the working directory, the Unicode
    case tables, the clock, and the outcome of every call, which may
    depend on everything that happened before. *)
Record Env := {
  cwd : jsstring;
  unicodeLower : jsstring -> jsstring;
  clock : list Event -> JSDate.Date;
  respond : list Event -> Call -> Resp
}.

Variant handle := Handle.

(** The fields of a [WikiSniffer] object; [None] is [null]. *)
Record Sniffer := {
  browser : option handle;
  context : option handle;
  page : option handle
}.

Record State := {
  this : Sniffer;
  fs : gmap (list N) Node;
  trace : list Event
}.

Definition ENOENT : Exn := {| message := JS.lit "ENOENT: no such file or directory" |}.
Definition EISDIR : Exn := {| message := JS.lit "EISDIR: illegal operation on a directory" |}.
Definition EEXIST : Exn := {| message := JS.lit "EEXIST: file already exists" |}.
Definition TypeError : Exn := {| message := JS.lit "Cannot read properties of null" |}.

(** The answer to a call. [access] (mode [F_OK]) resolves for any entry,
    file or directory; [readFile] needs a file; [mkdir] with
    [recursive: true] resolves on an existing directory and rejects on an
    existing file. Everything else is up to the environment. *)
Definition answer (E : Env) (st : State) (c : Call) : Resp :=
  match c with
  | Access p =>
      match fs st !! p with
      | Some _ => Resolved []
      | None => Rejected ENOENT
      end
  | ReadFile p =>
      match fs st !! p with
      | Some (File content) => Resolved content
      | Some Dir => Rejected EISDIR
      | None => Rejected ENOENT
      end
  | Mkdir p recursive =>
      match fs st !! p with
      | Some Dir => if recursive then Resolved [] else Rejected EEXIST
      | Some (File _) => Rejected EEXIST
      | None => respond E (trace st) c
      end
  | _ => respond E (trace st) c
  end.

(** The effect of a resolved call on the file system. *)
Definition effect (c : Call) (r : Resp) (files : gmap (list N) Node)
  : gmap (list N) Node :=
  match c, r with
  | Mkdir p _, Resolved _ => <[p := Dir]> files
  | Screenshot p _, Resolved img => <[p := File img]> files
  | _, _ => files
  end.

End World.
Export World.

(* ===================================================================== *)
(** ** Control flow: a state and exception monad                          *)
(* ===================================================================== *)

Variant Result (A : Type) :=
  | Normal (a : A)
  | Thrown (e : Exn).
Arguments Normal {A} a.
Arguments Thrown {A} e.

Definition M (A : Type) : Type := State -> Result A * State.

Definition ret {A} (a : A) : M A := fun st => (Normal a, st).

Definition bind {A B} (m : M A) (k : A -> M B) : M B :=
  fun st =>
    match m st with
    | (Normal a, st') => k a st'
    | (Thrown e, st') => (Thrown e, st')
    end.

Definition throw {A} (e : Exn) : M A := fun st => (Thrown e, st).

(** [try { body } catch (error) { handler }] *)
Definition tryCatch {A} (body : M A) (handler : Exn -> M A) : M A :=
  fun st =>
    match body st with
    | (Normal a, st') => (Normal a, st')
    | (Thrown e, st') => handler e st'
    end.

(** [try { body } finally { cleanup }]: the cleanup always runs; an error
    it throws replaces the outcome of the body. *)
Definition tryFinally {A} (body : M A) (cleanup : M unit) : M A :=
  fun st =>
    match body st with
    | (r, st') =>
        match cleanup st' with
        | (Normal _, st'') => (r, st'')
        | (Thrown e, st'') => (Thrown e, st'')
        end
    end.

Declare Scope js_scope.
Delimit Scope js_scope with js.
Notation "'let!' x ':=' m 'in' k" := (bind m (fun x => k))
  (at level 10, x name, m at level 89, k at level 200) : js_scope.
Notation "m '>>' k" := (bind m (fun _ => k))
  (at level 90, right associativity) : js_scope.
Local Open Scope js_scope.

Definition emit (ev : Event) : M unit :=
  fun st => (Normal tt,
             {| this := this st; fs := fs st; trace := trace st ++ [ev] |}).

Definition consoleLog (m : Msg) : M unit := emit (ConsoleLog m).
Definition consoleError (m : Msg) : M unit := emit (ConsoleError m).

(** An awaited call: the world answers, the event is recorded, the file
    system changes when the call resolved, and a rejection is thrown. *)
Definition call (E : Env) (c : Call) : M jsstring :=
  fun st =>
    let r := answer E st c in
    let st' := {| this := this st;
                  fs := effect c r (fs st);
                  trace := trace st ++ [Called c r] |} in
    match r with
    | Resolved v => (Normal v, st')
    | Rejected e => (Thrown e, st')
    end.

(** [new Date()] *)
Definition newDate (E : Env) : M JSDate.Date :=
  fun st => (Normal (clock E (trace st)), st).

(** A method call on [this.browser], [this.context] or [this.page]:
    a [TypeError] while the field is still [null]. *)
Definition on (field : Sniffer -> option handle) (E : Env) (c : Call)
  : M jsstring :=
  fun st =>
    match field (this st) with
    | Some _ => call E c st
    | None => (Thrown TypeError, st)
    end.

Definition setThis (f : Sniffer -> Sniffer) : M unit :=
  fun st => (Normal tt,
             {| this := f (this st); fs := fs st; trace := trace st |}).

(** [xs.forEach(x => f(x))] *)
Fixpoint forEach {A} (f : A -> M unit) (xs : list A) : M unit :=
  match xs with
  | [] => ret tt
  | x :: xs' => f x >> forEach f xs'
  end.

(* ===================================================================== *)
(** ** wikisniffer.js                                                     *)
(* ===================================================================== *)

Module WikiSniffer.
Section Program.

Variable E : Env.

(** [const OUT_DIR = path.join(process.cwd(), 'snapshots')] *)
Definition OUT_DIR : jsstring := Path.join (cwd E) (JS.lit "snapshots").

Definition searchInput : jsstring := JS.lit "input[name=search]".
Definition firstResult : jsstring := JS.lit "#mw-content-text a".

(** [searchTerm.replace(/[^a-z0-9]/gi, '_').toLowerCase()] *)
Definition sanitizedTerm (searchTerm : jsstring) : jsstring :=
  JS.toLowerCase (unicodeLower E)
    (JS.replaceAll (fun c => negb (JS.isAlnum c)) JS.underscore searchTerm).

(** [date.toISOString().replace(/[:.]/g, '-').split('T')[0]] *)
Definition timestamp (date : JSDate.Date) : jsstring :=
  JS.first
    (JS.split 84
       (JS.replaceAll (fun c => (c =? 58) || (c =? 46)) 45
          (JSDate.toISOString date))).

Definition filename (searchTerm : jsstring) (date : JSDate.Date) : jsstring :=
  sanitizedTerm searchTerm ++ [JS.underscore] ++ timestamp date ++ JS.lit ".png".

Definition filepath (searchTerm : jsstring) (date : JSDate.Date) : jsstring :=
  Path.join OUT_DIR (filename searchTerm date).

Definition errorFilename (searchTerm : jsstring) : jsstring :=
  JS.lit "error_" ++ sanitizedTerm searchTerm ++ JS.lit ".png".

Definition errorFilepath (searchTerm : jsstring) : jsstring :=
  Path.join OUT_DIR (errorFilename searchTerm).

Definition ensureOutDir : M unit :=
  tryCatch
    (call E (Access OUT_DIR) >> ret tt)
    (fun _ =>
       call E (Mkdir OUT_DIR true) >>
       consoleLog (MCreatedDir OUT_DIR)).

Definition initialize : M unit :=
  consoleLog MLaunching >>
  call E (Launch false 300) >>
  setThis (fun s => {| browser := Some Handle;
                       context := context s; page := page s |}) >>
  on browser E NewContext >>
  setThis (fun s => {| browser := browser s;
                       context := Some Handle; page := page s |}) >>
  on context E NewPage >>
  setThis (fun s => {| browser := browser s;
                       context := context s; page := Some Handle |}) >>
  ensureOutDir.

(** The fallback of the [catch] block: a viewport screenshot whose own
    failure is caught. *)
Definition errorScreenshot (searchTerm : jsstring) : M unit :=
  tryCatch
    (on page E (Screenshot (errorFilepath searchTerm) false) >>
     consoleLog (MErrorShotSaved (errorFilename searchTerm)))
    (fun _ => consoleLog MNoErrorShot).

Definition searchAndCapture (searchTerm : jsstring) : M (option jsstring) :=
  consoleLog (MSearching searchTerm) >>
  tryCatch
    (on page E (Goto (JS.lit "https://www.wikipedia.org")) >>
     on page E (Fill searchInput searchTerm) >>
     on page E (Press (JS.lit "Enter")) >>
     on page E (WaitForSelector firstResult (Some 10000)) >>
     on page E (Click firstResult) >>
     on page E (WaitForLoadState (JS.lit "networkidle")) >>
     let! url := on page E PageUrl in
     consoleLog (MLoaded url) >>
     consoleLog MScrolling >>
     on page E (Wheel 0 1500) >>
     on page E (WaitForTimeout 800) >>
     on page E (Wheel 0 1500) >>
     on page E (WaitForTimeout 800) >>
     on page E (Wheel 0 1000) >>
     on page E (WaitForTimeout 500) >>
     let! date := newDate E in
     on page E (Screenshot (filepath searchTerm date) true) >>
     consoleLog (MSaved (filename searchTerm date)) >>
     ret (Some (filepath searchTerm date)))
    (fun error =>
       consoleError (MErrorProcessing searchTerm (message error)) >>
       errorScreenshot searchTerm >>
       ret None).

(** An entry of [results]. *)
Record Outcome := {
  term : jsstring;
  success : bool;
  resultPath : option jsstring
}.

(** [content.split('\n').map(term => term.trim()).filter(term => term.length > 0)] *)
Definition parseTerms (content : jsstring) : list jsstring :=
  List.filter (fun t => (0 <? length t)%nat)
    (map JS.trim (JS.split 10 content)).

(** The [for] loop over [terms], from index [i] on; [rest] holds
    [terms[i..]] and [n] is [terms.length]. *)
Fixpoint processLoop (n i : nat) (rest : list jsstring)
  (results : list Outcome) : M (list Outcome) :=
  match rest with
  | [] => ret results
  | t :: rest' =>
      consoleLog (MProcessing (i + 1) n t) >>
      let! result := searchAndCapture t in
      let results' :=
        results ++ [{| term := t; success := JS.truthy result;
                       resultPath := result |}] in
      (if (Z.of_nat i <? Z.of_nat n - 1)%Z
       then consoleLog MWaiting >>
            on page E (WaitForTimeout 2000) >> ret tt
       else ret tt) >>
      processLoop n (S i) rest' results'
  end.

Definition printSummary (results : list Outcome) : M unit :=
  consoleLog MSummary >>
  consoleLog (MRule 50) >>
  let successful := length (List.filter success results) in
  consoleLog (MSuccessful successful (length results)) >>
  consoleLog (MFailed (length results - successful) (length results)) >>
  (if (0 <? successful)%nat
   then consoleLog MSavedHeader >>
        forEach (fun r => consoleLog
                   (MBullet (Path.basename (default [] (resultPath r)))))
          (List.filter success results)
   else ret tt) >>
  (if (0 <? length results - successful)%nat
   then consoleLog MFailedHeader >>
        forEach (fun r => consoleLog (MBullet (term r)))
          (List.filter (fun r => negb (success r)) results)
   else ret tt) >>
  consoleLog MAllDone.

Definition processTermsFromFile (filePath : jsstring) : M unit :=
  tryCatch
    (consoleLog (MReading filePath) >>
     let! content := call E (ReadFile filePath) in
     let terms := parseTerms content in
     consoleLog (MFound (length terms)) >>
     let! results := processLoop (length terms) 0 terms [] in
     printSummary results)
    (fun error => consoleError (MErrorReading (message error))).

Definition close : M unit :=
  fun st =>
    match browser (this st) with
    | Some _ => (consoleLog MClosing >> call E BrowserClose >> ret tt) st
    | None => (Normal tt, st)
    end.

(** [main], on [process.argv.slice(2)]. *)
Definition main (args : list jsstring) : M unit :=
  match args with
  | [] => consoleLog MUsage
  | input :: _ =>
      setThis (fun _ => {| browser := None; context := None; page := None |}) >>
      tryFinally
        (tryCatch
           (initialize >>
            tryCatch
              (call E (Access input) >> processTermsFromFile input)
              (fun _ =>
                 consoleLog MSingle >>
                 searchAndCapture input >> ret tt))
           (fun error => consoleError (MFatal error)))
        close
  end.

(** The exit code of a script whose last pending promise settled with
    [r]: an unhandled rejection makes Node exit with code 1. *)
Definition exitCode {A} (r : Result A) : N :=
  match r with
  | Normal _ => 0
  | Thrown _ => 1
  end.

(** [main().catch(console.error)]. The [SIGINT] handler of the source
    exits at once, from outside this control flow; it is not part of the
    runs described here. *)
Definition script (args : list jsstring) (st : State) : N * State :=
  match tryCatch (main args) (fun e => consoleError (MUncaught e)) st with
  | (r, st') => (exitCode r, st')
  end.

End Program.
End WikiSniffer.

(* ===================================================================== *)
(** ** The stand-alone demo script (the second source file)               *)
(* ===================================================================== *)

Module Demo.
Section Program.

Variable E : Env.

Definition OUT_DIR : jsstring := Path.join (cwd E) (JS.lit "snapshots").

Definition main : M unit :=
  call E (Launch false 500) >>
  call E NewContext >>
  call E NewPage >>
  call E (Goto (JS.lit "https://www.wikipedia.org")) >>
  call E (Fill WikiSniffer.searchInput (JS.lit "Boxing")) >>
  call E (Press (JS.lit "Enter")) >>
  call E (WaitForSelector WikiSniffer.firstResult None) >>
  call E (Click WikiSniffer.firstResult) >>
  call E (Wheel 0 2000) >>
  call E (WaitForTimeout 1000) >>
  call E (Wheel 0 2000) >>
  call E (WaitForTimeout 1000) >>
  call E (Screenshot (Path.join OUT_DIR (JS.lit "info.png")) true) >>
  consoleLog MDemoSaved >>
  call E BrowserClose >>
  ret tt.

(** [main();] with nothing attached to the promise. *)
Definition script (st : State) : N * State :=
  match main st with
  | (r, st') => (WikiSniffer.exitCode r, st')
  end.

End Program.
End Demo.


(* ===================================================================== *)
(** ** The words of the specification                                     *)
(* ===================================================================== *)

Module Spec.

(** "Replace every character outside letters and digits with an
    underscore, lower-case the letters", one code unit at a time. *)
Definition sanitizeUnit (c : N) : N :=
  if JS.isAlnum c then JS.asciiLower c else JS.underscore.

(** The characters [[a-z0-9_]]. *)
Definition plain (c : N) : bool :=
  JS.isLower c || JS.isDigit c || (c =? JS.underscore).

(** The characters of a date stamp: digits, the hyphen, and the sign of
    a year outside 0..9999. *)
Definition dateChar (c : N) : bool :=
  JS.isDigit c || (c =? 45) || (c =? 43).

(** A line is blank when it holds white space only. *)
Definition blank (line : jsstring) : bool := forallb JS.isWhiteSpace line.

(** "Split into lines, blank lines discarded, trimmed." *)
Definition nonblankTrimmedLines (content : jsstring) : list jsstring :=
  map JS.trim
    (List.filter (fun line => negb (blank line)) (JS.split 10 content)).

End Spec.

(* ===================================================================== *)
(** ** Reading a trace                                                    *)
(* ===================================================================== *)

Module Trace.

(** The terms for which a search was started, in order. *)
Definition searched (evs : list Event) : list jsstring :=
  omap (fun ev => match ev with
                  | ConsoleLog (MSearching t) => Some t
                  | _ => None
                  end) evs.

(** The vertical distances of the wheel gestures, in order. *)
Definition wheels (evs : list Event) : list Z :=
  omap (fun ev => match ev with
                  | Called (Wheel _ dy) _ => Some dy
                  | _ => None
                  end) evs.

(** Wheel gestures and pauses, in order. *)
Definition gestures (evs : list Event) : list Call :=
  omap (fun ev => match ev with
                  | Called (Wheel dx dy) _ => Some (Wheel dx dy)
                  | Called (WaitForTimeout ms) _ => Some (WaitForTimeout ms)
                  | _ => None
                  end) evs.

(** The paths of the viewport-only screenshots that were attempted, and
    of those that were written. *)
Definition errorShotsTried (evs : list Event) : list jsstring :=
  omap (fun ev => match ev with
                  | Called (Screenshot p false) _ => Some p
                  | _ => None
                  end) evs.

Definition errorShotsWritten (evs : list Event) : list jsstring :=
  omap (fun ev => match ev with
                  | Called (Screenshot p false) (Resolved _) => Some p
                  | _ => None
                  end) evs.

Definition isCall (ev : Event) : bool :=
  match ev with
  | Called _ _ => true
  | _ => false
  end.

Definition isLaunched (ev : Event) : bool :=
  match ev with
  | Called (Launch _ _) (Resolved _) => true
  | _ => false
  end.

Definition isClose (ev : Event) : bool :=
  match ev with
  | Called BrowserClose _ => true
  | _ => false
  end.

Definition isMkdir (ev : Event) : bool :=
  match ev with
  | Called (Mkdir _ _) _ => true
  | _ => false
  end.

Definition isRejected (ev : Event) : bool :=
  match ev with
  | Called _ (Rejected _) => true
  | _ => false
  end.

(** A call that drives the page for a capture. *)
Definition isCapture (ev : Event) : bool :=
  match ev with
  | Called (Goto _) _ | Called (Fill _ _) _ | Called (Press _) _
  | Called (WaitForSelector _ _) _ | Called (Click _) _
  | Called (WaitForLoadState _) _ | Called PageUrl _
  | Called (Wheel _ _) _ | Called (Screenshot _ _) _ => true
  | _ => false
  end.

(** The pause between two terms of a batch was rejected. *)
Definition isBrokenPause (ev : Event) : bool :=
  match ev with
  | Called (WaitForTimeout 2000) (Rejected _) => true
  | _ => false
  end.

(** The events before the first full-page screenshot. *)
Fixpoint untilShot (evs : list Event) : list Event :=
  match evs with
  | [] => []
  | Called (Screenshot _ true) _ :: _ => []
  | ev :: rest => ev :: untilShot rest
  end.

(** The session's own events: a launched browser, its close, the
    creation of the output directory. *)
Definition isLifecycle (ev : Event) : bool :=
  isLaunched ev || isClose ev || isMkdir ev.

(** An event a capture or a batch may leave behind. *)
Definition isQuiet (ev : Event) : bool := negb (isLifecycle ev).

(** A line of the final summary. *)
Definition isSummary (ev : Event) : bool :=
  match ev with
  | ConsoleLog MSummary | ConsoleLog (MRule _) | ConsoleLog (MSuccessful _ _)
  | ConsoleLog (MFailed _ _) | ConsoleLog MSavedHeader | ConsoleLog (MBullet _)
  | ConsoleLog MFailedHeader | ConsoleLog MAllDone => true
  | _ => false
  end.

(** The viewport-only screenshots that were rejected. *)
Definition errorShotsFailed (evs : list Event) : list jsstring :=
  omap (fun ev => match ev with
                  | Called (Screenshot p false) (Rejected _) => Some p
                  | _ => None
                  end) evs.

(** The events a computation added to the trace. *)
Definition added (before after : State) : list Event :=
  drop (length (trace before)) (trace after).

End Trace.

(* ===================================================================== *)
(** ** Sample worlds                                                      *)
(* ===================================================================== *)

Module Sample.

Definition today : JSDate.Date :=
  {| JSDate.year := 2026; JSDate.month := 11; JSDate.day := 3;
     JSDate.hours := 5; JSDate.minutes := 47; JSDate.seconds := 0;
     JSDate.millis := 12 |}.

(** A world in which every call resolves. *)
Definition calm : Env :=
  {| cwd := JS.lit "/home/user/wikisniffer";
     unicodeLower := fun s => s;
     clock := fun _ => today;
     respond := fun _ _ => Resolved [] |}.

Definition closed : Exn := {| message := JS.lit "Target page has been closed" |}.

(** A world in which the page is closed while the batch pauses. *)
Definition closing : Env :=
  {| cwd := cwd calm; unicodeLower := unicodeLower calm; clock := clock calm;
     respond := fun _ c =>
       match c with
       | WaitForTimeout 2000 => Rejected closed
       | _ => Resolved []
       end |}.

(** A world without network: navigation is rejected. *)
Definition offline : Env :=
  {| cwd := cwd calm; unicodeLower := unicodeLower calm; clock := clock calm;
     respond := fun _ c =>
       match c with
       | Goto _ => Rejected {| message := JS.lit "net::ERR_INTERNET_DISCONNECTED" |}
       | _ => Resolved []
       end |}.

(** A world in which no result link ever appears. *)
Definition timeout : Env :=
  {| cwd := cwd calm; unicodeLower := unicodeLower calm; clock := clock calm;
     respond := fun _ c =>
       match c with
       | WaitForSelector _ _ => Rejected {| message := JS.lit "Timeout 10000ms exceeded" |}
       | _ => Resolved []
       end |}.

Definition fresh : Sniffer :=
  {| browser := None; context := None; page := None |}.

Definition ready : Sniffer :=
  {| browser := Some Handle; context := Some Handle; page := Some Handle |}.

(** Before the run: nothing on disk. *)
Definition empty : State := {| this := fresh; fs := ∅; trace := [] |}.

(** An initialized sniffer on an empty disk. *)
Definition started : State := {| this := ready; fs := ∅; trace := [] |}.

(** A disk with a terms file of three lines, the second one blank. *)
Definition withTerms : State :=
  {| this := ready;
     fs := {[ JS.lit "terms.txt" := File (JS.lit "a" ++ [10; 10] ++ JS.lit "b") ]};
     trace := [] |}.

(** A working directory in which [snapshots] is a regular file. *)
Definition shadowed : State :=
  {| this := fresh;
     fs := {[ WikiSniffer.OUT_DIR calm := File [] ]};
     trace := [] |}.

End Sample.

(* ===================================================================== *)
(** ** Further vocabulary: the parts of [main], the story of a batch      *)
(* ===================================================================== *)

Module Anatomy.

(** The inner [try]/[catch] of [main]: a batch when [access(input)]
    resolves, a single capture of the argument otherwise. *)
Definition dispatch (E : Env) (input : jsstring) : M unit :=
  tryCatch
    (call E (Access input) >> WikiSniffer.processTermsFromFile E input)
    (fun _ =>
       consoleLog MSingle >>
       WikiSniffer.searchAndCapture E input >> ret tt).

(** The [finally] block of [main], after a body that ended in [r]. *)
Definition closing {A} (E : Env) (r : Result A) (st : State)
  : Result A * State :=
  match WikiSniffer.close E st with
  | (Normal _, st') => (r, st')
  | (Thrown e, st') => (Thrown e, st')
  end.

(** The state [main] starts [initialize] in: a new sniffer. *)
Definition constructed (st : State) : State :=
  {| this := {| browser := None; context := None; page := None |};
     fs := fs st; trace := trace st |}.

End Anatomy.

Module Story.

(** A term as the batch wants it: not empty, on one line, without white
    space at either end. *)
Definition clean (t : jsstring) : Prop :=
  t <> [] /\ ~ In 10 t
  /\ (forall c r, t = c :: r -> JS.isWhiteSpace c = false)
  /\ (forall c r, t = r ++ [c] -> JS.isWhiteSpace c = false).

(** The same, as a test. *)
Definition cleanb (t : jsstring) : bool :=
  match t, rev t with
  | c :: _, c' :: _ =>
      negb (JS.isWhiteSpace c) && negb (JS.isWhiteSpace c')
      && forallb (fun x => negb (x =? 10)) t
  | _, _ => false
  end.

(** What a reader of the console sees of a batch. *)
Variant Step :=
  | Searched (term : jsstring)
  | Saved (filename : jsstring)
  | Failed (term : jsstring)
  | Paused.

Definition stepOf (ev : Event) : option Step :=
  match ev with
  | ConsoleLog (MSearching t) => Some (Searched t)
  | ConsoleLog (MSaved f) => Some (Saved f)
  | ConsoleError (MErrorProcessing t _) => Some (Failed t)
  | Called (WaitForTimeout 2000) _ => Some Paused
  | _ => None
  end.

Definition story (evs : list Event) : list Step := omap stepOf evs.

(** The lines of the summary, in order. *)
Definition summaryLines (evs : list Event) : list Msg :=
  omap (fun ev => match ev with
                  | ConsoleLog m =>
                      if Trace.isSummary (ConsoleLog m) then Some m else None
                  | _ => None
                  end) evs.

(** How one term ended: with the date of its screenshot, or without. *)
Definition Ending : Type := jsstring * option JSDate.Date.

(** The story of one capture. *)
Definition one (E : Env) (o : Ending) : list Step :=
  match o with
  | (t, Some date) => [Searched t; Saved (WikiSniffer.filename E t date)]
  | (t, None) => [Searched t; Failed t]
  end.

(** The story of a batch that ran to its end: the captures, with a
    pause between two of them. *)
Fixpoint batchStory (E : Env) (os : list Ending) : list Step :=
  match os with
  | [] => []
  | o :: rest =>
      one E o ++ match rest with
                 | [] => []
                 | _ :: _ => Paused :: batchStory E rest
                 end
  end.

(** The entry of [results] for a term that ended that way. *)
Definition outcomeOf (E : Env) (o : Ending) : WikiSniffer.Outcome :=
  {| WikiSniffer.term := fst o;
     WikiSniffer.success := match snd o with Some _ => true | None => false end;
     WikiSniffer.resultPath := option_map (WikiSniffer.filepath E (fst o)) (snd o) |}.

Definition savedNames (E : Env) (os : list Ending) : list jsstring :=
  omap (fun o => option_map (WikiSniffer.filename E (fst o)) (snd o)) os.

Definition failedTerms (os : list Ending) : list jsstring :=
  omap (fun o => match snd o with Some _ => None | None => Some (fst o) end) os.

(** The summary a reader expects after these endings. *)
Definition expectedSummary (E : Env) (os : list Ending) : list Msg :=
  let saved := savedNames E os in
  let failed := failedTerms os in
  [MSummary; MRule 50;
   MSuccessful (length saved) (length os);
   MFailed (length failed) (length os)]
  ++ (match saved with
      | [] => []
      | _ :: _ => MSavedHeader :: map MBullet saved
      end)
  ++ (match failed with
      | [] => []
      | _ :: _ => MFailedHeader :: map MBullet failed
      end)
  ++ [MAllDone].

End Story.

Module MoreSamples.

(** A world in which no browser can be launched. *)
Definition noBrowser : Env :=
  {| cwd := cwd Sample.calm; unicodeLower := unicodeLower Sample.calm;
     clock := clock Sample.calm;
     respond := fun _ c =>
       match c with
       | Launch _ _ => Rejected {| message := JS.lit "Executable doesn't exist" |}
       | _ => Resolved []
       end |}.

(** A world in which the output directory cannot be created. *)
Definition readOnly : Env :=
  {| cwd := cwd Sample.calm; unicodeLower := unicodeLower Sample.calm;
     clock := clock Sample.calm;
     respond := fun _ c =>
       match c with
       | Mkdir _ _ => Rejected {| message := JS.lit "EACCES: permission denied" |}
       | _ => Resolved []
       end |}.

(** A world in which the browser does not close. *)
Definition stuck : Env :=
  {| cwd := cwd Sample.calm; unicodeLower := unicodeLower Sample.calm;
     clock := clock Sample.calm;
     respond := fun _ c =>
       match c with
       | BrowserClose => Rejected {| message := JS.lit "Browser closed unexpectedly" |}
       | _ => Resolved []
       end |}.

(** A disk with a directory [notes] and a file of blank lines. *)
Definition withDirectory : State :=
  {| this := Sample.ready;
     fs := {[ JS.lit "notes" := Dir ]};
     trace := [] |}.

Definition withBlanks : State :=
  {| this := Sample.ready;
     fs := {[ JS.lit "blank.txt" := File ([32; 10; 9; 13; 10] ++ [10]) ]};
     trace := [] |}.

End MoreSamples.

(* ===================================================================== *)
(** ** Facts about the string built-ins                                   *)
(* ===================================================================== *)

Ltac compare_units :=
  repeat match goal with
    | |- context [N.leb ?a ?b] => destruct (N.leb_spec a b)
    | |- context [N.ltb ?a ?b] => destruct (N.ltb_spec a b)
    | |- context [N.eqb ?a ?b] => destruct (N.eqb_spec a b)
    | H : context [N.leb ?a ?b] |- _ => destruct (N.leb_spec a b)
    | H : context [N.ltb ?a ?b] |- _ => destruct (N.ltb_spec a b)
    | H : context [N.eqb ?a ?b] |- _ => destruct (N.eqb_spec a b)
    end;
  simpl in *; try congruence; try lia.

Ltac unfold_units :=
  unfold Spec.sanitizeUnit, Spec.plain, Spec.dateChar, JS.asciiLower,
    JS.isAlnum, JS.isLower, JS.isUpper, JS.isDigit, JS.isAscii,
    JS.underscore, JSDate.digit in *.

Section StringFacts.

Lemma sanitizeUnit_plain c : Spec.plain (Spec.sanitizeUnit c) = true.
Proof. unfold_units. compare_units. Qed.

Lemma replaced_is_ascii s :
  forallb JS.isAscii
    (JS.replaceAll (fun c => negb (JS.isAlnum c)) JS.underscore s) = true.
Proof.
  induction s as [|c s IH]; simpl; [reflexivity|].
  rewrite IH, andb_true_r. unfold_units. compare_units.
Qed.

(** Sanitizing works one code unit at a time, whatever the Unicode
    tables say: lower-casing only ever sees ASCII. *)
Lemma sanitizedTerm_pointwise E s :
  WikiSniffer.sanitizedTerm E s = map Spec.sanitizeUnit s.
Proof.
  unfold WikiSniffer.sanitizedTerm, JS.toLowerCase.
  rewrite replaced_is_ascii. unfold JS.replaceAll.
  rewrite map_map. apply map_ext. intros c.
  unfold_units. compare_units.
Qed.

Lemma sanitizedTerm_plain E s :
  Forall (fun c => Spec.plain c = true) (WikiSniffer.sanitizedTerm E s).
Proof.
  rewrite sanitizedTerm_pointwise.
  induction s; simpl; constructor; auto using sanitizeUnit_plain.
Qed.

Lemma sanitizedTerm_length E s :
  length (WikiSniffer.sanitizedTerm E s) = length s.
Proof. rewrite sanitizedTerm_pointwise. apply length_map. Qed.

Lemma plain_not_slash c : Spec.plain c = true -> c <> Path.slash.
Proof. unfold Path.slash. unfold_units. compare_units. Qed.

Lemma dateChar_not_slash c : Spec.dateChar c = true -> c <> Path.slash.
Proof. unfold Path.slash. unfold_units. compare_units. Qed.

(** *** [split] and [join] *)

Lemma split_nonempty sep s : JS.split sep s <> [].
Proof.
  destruct s as [|c s]; simpl; [discriminate|].
  destruct (c =? sep); [discriminate|].
  destruct (JS.split sep s); discriminate.
Qed.

Lemma split_app sep a b :
  JS.split sep (a ++ sep :: b) = JS.split sep a ++ JS.split sep b.
Proof.
  induction a as [|c a IH]; simpl.
  - rewrite N.eqb_refl. reflexivity.
  - destruct (c =? sep); [now rewrite IH|].
    rewrite IH. pose proof (split_nonempty sep a) as Hne.
    destruct (JS.split sep a); [contradiction|reflexivity].
Qed.

Lemma split_no_sep sep s : ~ In sep s -> JS.split sep s = [s].
Proof.
  induction s as [|c s IH]; simpl; intros Hn; [reflexivity|].
  destruct (N.eqb_spec c sep) as [->|_]; [tauto|].
  rewrite IH by tauto. reflexivity.
Qed.

Lemma split_pieces sep s : Forall (fun p => ~ In sep p) (JS.split sep s).
Proof.
  induction s as [|c s IH]; simpl.
  - constructor; [intros []|constructor].
  - destruct (N.eqb_spec c sep) as [->|Hne].
    + constructor; [intros []|exact IH].
    + destruct (JS.split sep s) as [|p ps]; simpl.
      * constructor; [|constructor]. intros [H|[]]. congruence.
      * inversion IH; subst. constructor; [|assumption].
        intros [H|H]; [congruence|contradiction].
Qed.

Lemma join_split sep s : JS.join [sep] (JS.split sep s) = s.
Proof.
  induction s as [|c s IH]; simpl; [reflexivity|].
  pose proof (split_nonempty sep s) as Hne.
  destruct (N.eqb_spec c sep) as [->|_].
  - destruct (JS.split sep s) as [|p ps]; [contradiction|].
    simpl in *. now rewrite IH.
  - destruct (JS.split sep s) as [|p ps]; [contradiction|].
    destruct ps; simpl in *; now rewrite <- IH.
Qed.

Lemma split_join sep pieces :
  pieces <> [] -> Forall (fun p => ~ In sep p) pieces ->
  JS.split sep (JS.join [sep] pieces) = pieces.
Proof.
  induction pieces as [|p ps IH]; intros Hne Hall; [contradiction|].
  inversion Hall as [|? ? Hp Hps]; subst.
  destruct ps as [|q ps].
  - simpl. now apply split_no_sep.
  - change (JS.join [sep] (p :: q :: ps))
      with (p ++ sep :: JS.join [sep] (q :: ps)).
    rewrite split_app, split_no_sep by assumption.
    rewrite IH by (auto; discriminate). reflexivity.
Qed.

Lemma first_split sep a b :
  ~ In sep a -> JS.first (JS.split sep (a ++ sep :: b)) = a.
Proof. intros H. now rewrite split_app, split_no_sep. Qed.

(** *** [trim] *)

Lemma trimStart_nil s :
  JS.trimStart s = [] <-> forallb JS.isWhiteSpace s = true.
Proof.
  induction s as [|c s IH]; simpl; [tauto|].
  destruct (JS.isWhiteSpace c); simpl; [exact IH|].
  split; discriminate.
Qed.

Lemma trimStart_suffix s : exists ws,
  s = ws ++ JS.trimStart s /\ forallb JS.isWhiteSpace ws = true.
Proof.
  induction s as [|c s (ws & Hs & Hws)]; simpl.
  - now exists [].
  - destruct (JS.isWhiteSpace c) eqn:Hc.
    + exists (c :: ws). simpl. rewrite Hc, Hws. split; [now f_equal|reflexivity].
    + now exists [].
Qed.

Lemma trimStart_head s c r :
  JS.trimStart s = c :: r -> JS.isWhiteSpace c = false.
Proof.
  induction s as [|d s IH]; simpl; [discriminate|].
  destruct (JS.isWhiteSpace d) eqn:Hd; [exact IH|].
  intros [= <- _]. exact Hd.
Qed.

Lemma forallb_rev {A} (f : A -> bool) l : forallb f (rev l) = forallb f l.
Proof.
  induction l as [|x l IH]; simpl; [reflexivity|].
  rewrite forallb_app, IH. simpl. rewrite andb_true_r. apply andb_comm.
Qed.

Lemma trim_nil s : JS.trim s = [] <-> Spec.blank s = true.
Proof.
  unfold JS.trim, JS.trimEnd, Spec.blank. split.
  - intros H. apply (f_equal (@rev N)) in H. rewrite rev_involutive in H.
    simpl in H. apply trimStart_nil in H. rewrite forallb_rev in H.
    apply trimStart_nil.
    destruct (JS.trimStart s) as [|c r] eqn:Hs; [reflexivity|].
    apply trimStart_head in Hs. simpl in H. now rewrite Hs in H.
  - intros H. apply trimStart_nil in H. now rewrite H.
Qed.

(** What [trim] returns: the string without a blank prefix and a blank
    suffix, and with white space at neither end. *)
Lemma trim_spec s : exists before after,
  s = before ++ JS.trim s ++ after
  /\ Spec.blank before = true /\ Spec.blank after = true
  /\ (forall c r, JS.trim s = c :: r -> JS.isWhiteSpace c = false)
  /\ (forall c r, JS.trim s = r ++ [c] -> JS.isWhiteSpace c = false).
Proof.
  unfold JS.trim, JS.trimEnd, Spec.blank.
  destruct (trimStart_suffix s) as (before & Hs & Hb).
  destruct (trimStart_suffix (rev (JS.trimStart s))) as (after & Hr & Ha).
  exists before, (rev after). repeat split.
  - rewrite Hs at 1. f_equal.
    rewrite <- (rev_involutive (JS.trimStart s)), Hr at 1.
    now rewrite rev_app_distr.
  - exact Hb.
  - now rewrite forallb_rev.
  - intros c r Hc.
    destruct (JS.trimStart s) as [|d t] eqn:Hd; [discriminate|].
    pose proof (trimStart_head _ _ _ Hd) as Hd'.
    assert (Hin : forallb JS.isWhiteSpace (rev (d :: t)) = false).
    { rewrite forallb_rev. simpl. now rewrite Hd'. }
    assert (Hcut : rev (JS.trimStart (rev (d :: t))) ++ rev after = d :: t).
    { rewrite <- rev_app_distr, <- Hr. apply rev_involutive. }
    rewrite Hc in Hcut. simpl in Hcut. now injection Hcut as -> _.
  - intros c r Hc. apply (f_equal (@rev N)) in Hc.
    rewrite rev_involutive, rev_app_distr in Hc. simpl in Hc.
    now apply trimStart_head in Hc.
Qed.

Lemma trimmed_length_blank line :
  (0 <? length (JS.trim line))%nat = negb (Spec.blank line).
Proof.
  destruct (Spec.blank line) eqn:Hb.
  - apply trim_nil in Hb. now rewrite Hb.
  - destruct (JS.trim line) eqn:Ht; [|reflexivity].
    apply trim_nil in Ht. congruence.
Qed.

(** The terms of a file, as the code computes them, are its nonblank
    lines, trimmed. *)
Lemma parseTerms_spec content :
  WikiSniffer.parseTerms content = Spec.nonblankTrimmedLines content.
Proof.
  unfold WikiSniffer.parseTerms, Spec.nonblankTrimmedLines.
  induction (JS.split 10 content) as [|line lines IH]; simpl; [reflexivity|].
  rewrite trimmed_length_blank.
  destruct (Spec.blank line); simpl; now rewrite IH.
Qed.

End StringFacts.

(* ===================================================================== *)
(** ** Facts about the date stamp                                         *)
(* ===================================================================== *)

Section DateFacts.

Lemma digit_dateChar n : Spec.dateChar (JSDate.digit n) = true.
Proof.
  unfold_units.
  assert (0 <= n mod 10 < 10) by (split; [apply N.le_0_l|apply N.mod_lt; lia]).
  compare_units.
Qed.

Lemma isoYear_dateChar y :
  Forall (fun c => Spec.dateChar c = true) (JSDate.isoYear y).
Proof.
  unfold JSDate.isoYear, JSDate.pad4, JSDate.pad6.
  destruct ((0 <=? y)%Z && (y <=? 9999)%Z); [|destruct (y <? 0)%Z];
    repeat constructor; auto using digit_dateChar.
Qed.

Lemma isoDay_dateChar d : Forall (fun c => Spec.dateChar c = true) (JSDate.isoDay d).
Proof.
  unfold JSDate.isoDay, JSDate.pad2.
  repeat (apply Forall_app; split); auto using isoYear_dateChar;
    repeat constructor; auto using digit_dateChar.
Qed.

Lemma dateChar_kept s :
  Forall (fun c => Spec.dateChar c = true) s ->
  JS.replaceAll (fun c => (c =? 58) || (c =? 46)) 45 s = s /\ ~ In 84 s.
Proof.
  induction 1 as [|c s Hc _ [IH1 IH2]]; simpl; [tauto|].
  rewrite IH1. split.
  - f_equal. unfold_units. compare_units.
  - intros [->|H]; [discriminate|tauto].
Qed.

(** The stamp is the calendar day of the ISO string: the year, the month
    and the day, with hyphens. *)
Lemma timestamp_isoDay d : WikiSniffer.timestamp d = JSDate.isoDay d.
Proof.
  unfold WikiSniffer.timestamp, JSDate.toISOString.
  destruct (dateChar_kept _ (isoDay_dateChar d)) as [Hid HnoT].
  change (JSDate.isoYear (JSDate.year d) ++ [45]
          ++ JSDate.pad2 (JSDate.month d) ++ [45]
          ++ JSDate.pad2 (JSDate.day d) ++ [84] ++ ?r)
    with (JSDate.isoYear (JSDate.year d) ++ [45]
          ++ JSDate.pad2 (JSDate.month d) ++ [45]
          ++ JSDate.pad2 (JSDate.day d) ++ [84] ++ r).
  replace (JSDate.isoYear (JSDate.year d) ++ [45]
           ++ JSDate.pad2 (JSDate.month d) ++ [45]
           ++ JSDate.pad2 (JSDate.day d) ++ [84]
           ++ JSDate.pad2 (JSDate.hours d) ++ [58]
           ++ JSDate.pad2 (JSDate.minutes d) ++ [58]
           ++ JSDate.pad2 (JSDate.seconds d) ++ [46]
           ++ JSDate.pad3 (JSDate.millis d) ++ [90])
    with (JSDate.isoDay d ++ 84 ::
           JSDate.pad2 (JSDate.hours d) ++ [58]
           ++ JSDate.pad2 (JSDate.minutes d) ++ [58]
           ++ JSDate.pad2 (JSDate.seconds d) ++ [46]
           ++ JSDate.pad3 (JSDate.millis d) ++ [90])
    by (unfold JSDate.isoDay; now rewrite <- !app_assoc).
  unfold JS.replaceAll in *. rewrite map_app, Hid. simpl map.
  now apply first_split.
Qed.

Lemma timestamp_dateChar d :
  Forall (fun c => Spec.dateChar c = true) (WikiSniffer.timestamp d).
Proof. rewrite timestamp_isoDay. apply isoDay_dateChar. Qed.

(** Every stamp holds a hyphen. *)
Lemma timestamp_hyphen d : In 45 (WikiSniffer.timestamp d).
Proof.
  rewrite timestamp_isoDay. unfold JSDate.isoDay.
  apply in_or_app. right. now left.
Qed.

End DateFacts.

(* ===================================================================== *)
(** ** Facts about [path.join]                                            *)
(* ===================================================================== *)

Section PathFacts.

Ltac decide_segs :=
  unfold Path.seq_eqb in *;
  repeat case_bool_decide; simpl in *; subst; try congruence; try tauto.

Lemma settledStack_segments allow stack :
  Path.settledStack allow stack ->
  Forall (fun seg => ~ In Path.slash seg /\ seg <> []) stack.
Proof.
  induction stack as [|top rest IH]; simpl; [constructor|].
  intros [[(Hs & Hne & _)|(-> & _)] Hrest]; constructor; auto.
  split; [|discriminate]. unfold Path.dotdot, Path.slash. simpl.
  intros [H|[H|[]]]; discriminate.
Qed.

(** A step of [normalizeString] keeps the stack settled. *)
Lemma normStep_settled allow stack seg :
  ~ In Path.slash seg ->
  Path.settledStack allow stack ->
  Path.settledStack allow (Path.normStep allow stack seg).
Proof.
  intros Hseg Hst. unfold Path.normStep.
  destruct (Path.seq_eqb seg [] || Path.seq_eqb seg Path.dot) eqn:Hskip;
    [assumption|].
  apply orb_false_iff in Hskip as [H1 H2].
  destruct (Path.seq_eqb seg Path.dotdot) eqn:Hup.
  - destruct stack as [|top rest].
    + destruct allow; simpl; auto.
    + destruct (Path.seq_eqb top Path.dotdot) eqn:Htop.
      * destruct allow; [|assumption].
        assert (top = Path.dotdot) by decide_segs. subst top.
        simpl in Hst. destruct Hst as [[(_ & _ & _ & Hn)|(_ & _ & Hall)] Hrest];
          [congruence|].
        simpl. repeat split; auto.
      * simpl in Hst. tauto.
  - simpl. split; [left|assumption].
    unfold Path.isName. decide_segs.
Qed.

Lemma normalizeString_settled allow segs stack :
  Forall (fun seg => ~ In Path.slash seg) segs ->
  Path.settledStack allow stack ->
  Path.settledStack allow (fold_left (Path.normStep allow) segs stack).
Proof.
  intros Hsegs. revert stack.
  induction Hsegs as [|seg segs Hseg _ IH]; simpl; intros stack Hst;
    [assumption|].
  apply IH. now apply normStep_settled.
Qed.

Lemma normStep_name allow stack f :
  Path.isName f -> Path.normStep allow stack f = f :: stack.
Proof.
  intros (_ & H1 & H2 & H3). unfold Path.normStep. decide_segs.
Qed.

(** Normalizing the segments of a settled stack gives it back. *)
Lemma normalizeString_again allow stack :
  Path.settledStack allow stack ->
  fold_left (Path.normStep allow) (rev stack) [] = stack.
Proof.
  induction stack as [|top rest IH]; simpl; [reflexivity|].
  intros [Htop Hrest]. rewrite fold_left_app, IH by assumption. simpl.
  destruct Htop as [Hname|(-> & -> & Hall)].
  - now apply normStep_name.
  - unfold Path.normStep. simpl.
    destruct rest as [|t r]; [reflexivity|].
    inversion Hall; subst. reflexivity.
Qed.

Lemma join_snoc sep segs f :
  segs <> [] -> JS.join sep (segs ++ [f]) = JS.join sep segs ++ sep ++ f.
Proof.
  induction segs as [|p ps IH]; intros Hne; [contradiction|].
  destruct ps as [|q ps]; [reflexivity|].
  change (JS.join sep ((p :: q :: ps) ++ [f]))
    with (p ++ sep ++ JS.join sep ((q :: ps) ++ [f])).
  rewrite IH by discriminate. simpl. now rewrite <- !app_assoc.
Qed.

Lemma join_head segs :
  segs <> [] ->
  Forall (fun seg => ~ In Path.slash seg /\ seg <> []) segs ->
  exists c r, JS.join [Path.slash] segs = c :: r /\ c <> Path.slash.
Proof.
  destruct segs as [|[|c p] ps]; intros Hne Hall; [contradiction| |].
  - inversion Hall as [|? ? [_ H] _]; congruence.
  - inversion Hall as [|? ? [H _] _]; subst.
    exists c. destruct ps; simpl; eexists; (split; [reflexivity|]);
      intros ->; apply H; now left.
Qed.

Lemma trailingSeparator_name p f :
  Path.isName f -> Path.trailingSeparator (p ++ Path.slash :: f) = false.
Proof.
  intros (Hs & Hne & _). unfold Path.trailingSeparator.
  destruct (exists_last Hne) as (r & c & ->).
  replace (p ++ Path.slash :: r ++ [c]) with ((p ++ Path.slash :: r) ++ [c])
    by now rewrite <- app_assoc.
  rewrite rev_unit. apply N.eqb_neq. intros ->.
  apply Hs, in_or_app. right. now left.
Qed.

Lemma normalize_nonempty p :
  p <> [] ->
  Path.normalize p =
    match Path.normalizeString p (negb (Path.isAbsolute p)) with
    | [] =>
        if Path.isAbsolute p then [Path.slash]
        else if Path.trailingSeparator p then Path.dot ++ [Path.slash]
             else Path.dot
    | _ :: _ =>
        let q := Path.normalizeString p (negb (Path.isAbsolute p)) in
        let q' := if Path.trailingSeparator p then q ++ [Path.slash] else q in
        if Path.isAbsolute p then Path.slash :: q' else q'
    end.
Proof. destruct p; [contradiction|reflexivity]. Qed.

Lemma join_nonempty a b :
  a <> [] -> b <> [] -> Path.join a b = Path.normalize (a ++ Path.slash :: b).
Proof. destruct a, b; try contradiction; reflexivity. Qed.

(** Under a settled path, [path.join] with a file name only appends. *)
Lemma join_settled dir f :
  Path.settled dir -> Path.isName f ->
  Path.join dir f = dir ++ Path.slash :: f /\ Path.settled (dir ++ Path.slash :: f).
Proof.
  intros (absolute & stack & Hne & Hst & ->) Hf.
  pose proof (settledStack_segments _ _ Hst) as Hsegs.
  assert (Hrev : rev stack <> []).
  { intros H. apply (f_equal (@rev _)) in H.
    rewrite rev_involutive in H. contradiction. }
  assert (Hsegs' : Forall (fun seg => ~ In Path.slash seg /\ seg <> [])
                     (rev stack)) by now apply Forall_rev.
  destruct (join_head _ Hrev Hsegs') as (c & r & Hj & Hc).
  set (dir := Path.root absolute ++ JS.join [Path.slash] (rev stack)).
  assert (Hdir : dir <> []).
  { unfold dir. rewrite Hj. destruct absolute; discriminate. }
  assert (Habs : Path.isAbsolute (dir ++ Path.slash :: f) = absolute).
  { unfold dir. rewrite Hj. destruct absolute; simpl; [reflexivity|].
    now apply N.eqb_neq. }
  assert (Hsplit : fold_left (Path.normStep (negb absolute))
                     (JS.split Path.slash (dir ++ Path.slash :: f)) []
                   = f :: stack).
  { rewrite split_app, (split_no_sep _ f) by apply Hf.
    rewrite fold_left_app. simpl.
    assert (Hfold : fold_left (Path.normStep (negb absolute))
                      (JS.split Path.slash dir) [] = stack).
    { unfold dir. destruct absolute; simpl Path.root.
      - change ([Path.slash] ++ ?x) with ([] ++ Path.slash :: x).
        rewrite split_app. simpl JS.split. rewrite fold_left_app. simpl.
        rewrite split_join; auto.
        + now apply normalizeString_again.
        + eapply List.Forall_impl; [|exact Hsegs']. simpl. tauto.
      - simpl app. rewrite split_join; auto.
        + now apply normalizeString_again.
        + eapply List.Forall_impl; [|exact Hsegs']. simpl. tauto. }
    rewrite Hfold. now apply normStep_name. }
  assert (Hjoin : JS.join [Path.slash] (rev (f :: stack))
                  = JS.join [Path.slash] (rev stack) ++ Path.slash :: f).
  { simpl rev. now rewrite join_snoc. }
  split.
  - rewrite join_nonempty by (auto; apply Hf).
    rewrite normalize_nonempty by (destruct dir; [contradiction|discriminate]).
    cbv zeta. unfold Path.normalizeString.
    rewrite Habs, Hsplit, Hjoin, trailingSeparator_name by assumption.
    unfold dir. rewrite Hj. unfold Path.root.
    destruct absolute; reflexivity.
  - exists absolute, (f :: stack). repeat split.
    + discriminate.
    + now left.
    + assumption.
    + rewrite Hjoin. unfold dir. now rewrite <- app_assoc.
Qed.

(** The output directory is settled, whatever the working directory. *)
Lemma OUT_DIR_settled E : Path.settled (WikiSniffer.OUT_DIR E).
Proof.
  unfold WikiSniffer.OUT_DIR.
  set (snap := JS.lit "snapshots").
  assert (Hname : Path.isName snap).
  { unfold Path.isName, snap. vm_compute. repeat split; try discriminate.
    intros H. repeat (destruct H as [H|H]; [discriminate|]). exact H. }
  assert (Hshape : forall p segs,
    p <> [] -> JS.split Path.slash p = segs ++ [snap] ->
    Path.trailingSeparator p = false ->
    Path.settled (Path.normalize p)).
  { intros p segs Hp Hsplit Htrail.
    set (absolute := Path.isAbsolute p).
    set (stack := fold_left (Path.normStep (negb absolute)) segs []).
    assert (Hst : Path.settledStack (negb absolute) stack).
    { apply normalizeString_settled; [|exact I].
      pose proof (split_pieces Path.slash p) as Hall.
      rewrite Hsplit in Hall. now apply Forall_app in Hall. }
    exists absolute, (snap :: stack). repeat split.
    - discriminate.
    - now left.
    - assumption.
    - rewrite normalize_nonempty by assumption.
      cbv zeta. unfold Path.normalizeString.
      rewrite Hsplit, fold_left_app. simpl fold_left.
      fold absolute. fold stack. rewrite normStep_name by assumption.
      rewrite Htrail.
      assert (Hs : Forall (fun seg => ~ In Path.slash seg /\ seg <> [])
                     (rev (snap :: stack))).
      { apply Forall_rev. constructor.
        - split; [apply Hname|apply Hname].
        - now apply settledStack_segments in Hst. }
      destruct (join_head (rev (snap :: stack))) as (c & r & Hj & _);
        [simpl; now destruct (rev stack)|exact Hs|].
      rewrite Hj. unfold Path.root. now destruct absolute. }
  unfold Path.join. destruct (cwd E) as [|c0 w] eqn:Hcwd.
  - change (Path.settled (Path.normalize snap)).
    apply (Hshape snap []); [discriminate|reflexivity|reflexivity].
  - change (Path.settled (Path.normalize ((c0 :: w) ++ Path.slash :: snap))).
    apply (Hshape _ (JS.split Path.slash (c0 :: w))).
    + discriminate.
    + rewrite split_app. f_equal. 
    + now apply trailingSeparator_name.
Qed.

End PathFacts.

(* ===================================================================== *)
(** ** Facts about the file names                                         *)
(* ===================================================================== *)

Section NameFacts.

Lemma name_intro f c r :
  f = c :: r -> c <> 46 -> ~ In Path.slash f -> Path.isName f.
Proof.
  intros -> Hc Hs. repeat split; auto; unfold Path.dot, Path.dotdot; congruence.
Qed.

Lemma plain_no_slash s :
  Forall (fun c => Spec.plain c = true) s -> ~ In Path.slash s.
Proof.
  intros H Hin. rewrite List.Forall_forall in H.
  now apply (plain_not_slash _ (H _ Hin)).
Qed.

Lemma dateChar_no_slash s :
  Forall (fun c => Spec.dateChar c = true) s -> ~ In Path.slash s.
Proof.
  intros H Hin. rewrite List.Forall_forall in H.
  now apply (dateChar_not_slash _ (H _ Hin)).
Qed.

Lemma png_no_slash : ~ In Path.slash (JS.lit ".png").
Proof. vm_compute. intros H. repeat (destruct H as [H|H]; [discriminate|]). exact H. Qed.

Lemma filename_isName E t d : Path.isName (WikiSniffer.filename E t d).
Proof.
  unfold WikiSniffer.filename.
  pose proof (sanitizedTerm_plain E t) as Hp.
  assert (Hs : ~ In Path.slash
                 (WikiSniffer.sanitizedTerm E t ++ [JS.underscore]
                  ++ WikiSniffer.timestamp d ++ JS.lit ".png")).
  { intros H. apply in_app_or in H as [H|H];
      [now apply (plain_no_slash _ Hp)|].
    apply in_app_or in H as [[H|[]]|H]; [discriminate|].
    apply in_app_or in H as [H|H];
      [now apply (dateChar_no_slash _ (timestamp_dateChar d))|].
    now apply png_no_slash. }
  destruct (WikiSniffer.sanitizedTerm E t) as [|c r] eqn:Hsan.
  - eapply name_intro; [reflexivity|discriminate|exact Hs].
  - eapply name_intro; [reflexivity| |exact Hs].
    inversion Hp as [|? ? Hc _]; subst. intros ->. discriminate.
Qed.

Lemma errorFilename_isName E t : Path.isName (WikiSniffer.errorFilename E t).
Proof.
  unfold WikiSniffer.errorFilename.
  eapply name_intro; [reflexivity|discriminate|].
  change (JS.lit "error_" ++ ?x) with (JS.lit "error" ++ [JS.underscore] ++ x).
  intros H. apply in_app_or in H as [H|H].
  { vm_compute in H. repeat (destruct H as [H|H]; [discriminate|]). exact H. }
  apply in_app_or in H as [[H|[]]|H]; [discriminate|].
  apply in_app_or in H as [H|H];
    [now apply (plain_no_slash _ (sanitizedTerm_plain E t))|].
  now apply png_no_slash.
Qed.

(** The screenshot lands directly in the output directory. *)
Lemma filepath_in_OUT_DIR E t d :
  WikiSniffer.filepath E t d
  = WikiSniffer.OUT_DIR E ++ Path.slash :: WikiSniffer.filename E t d.
Proof.
  apply join_settled; [apply OUT_DIR_settled|apply filename_isName].
Qed.

Lemma errorFilepath_in_OUT_DIR E t :
  WikiSniffer.errorFilepath E t
  = WikiSniffer.OUT_DIR E ++ Path.slash :: WikiSniffer.errorFilename E t.
Proof.
  apply join_settled; [apply OUT_DIR_settled|apply errorFilename_isName].
Qed.

Lemma filepath_nonempty E t d : WikiSniffer.filepath E t d <> [].
Proof.
  rewrite filepath_in_OUT_DIR. now destruct (WikiSniffer.OUT_DIR E).
Qed.

(** [path.basename] gives the file name back. *)
Lemma basename_filepath E t d :
  Path.basename (WikiSniffer.filepath E t d) = WikiSniffer.filename E t d.
Proof.
  rewrite filepath_in_OUT_DIR. unfold Path.basename.
  destruct (filename_isName E t d) as (Hs & Hne & _).
  rewrite split_app, (split_no_sep _ _ Hs), List.filter_app. simpl.
  unfold Path.seq_eqb. case_bool_decide; [contradiction|]. simpl.
  now rewrite last_last.
Qed.

End NameFacts.

(* ===================================================================== *)
(** ** Running the program symbolically                                   *)
(* ===================================================================== *)

Ltac run_js :=
  cbv beta iota zeta delta
    [WikiSniffer.searchAndCapture WikiSniffer.errorScreenshot
     WikiSniffer.ensureOutDir WikiSniffer.initialize WikiSniffer.close
     bind tryCatch tryFinally ret throw consoleLog consoleError emit on call
     newDate setThis answer effect this fs trace page browser context
     fst snd].

Ltac next_call :=
  match goal with
  | |- context [respond ?E ?h ?c] =>
      destruct (respond E h c) as [?|?]; run_js
  end.

Ltac tidy_trace := rewrite <- ?app_assoc; cbn [app].

Ltac find_in := cbn [In]; repeat (first [left; reflexivity | right]).

Section CaptureFacts.

Lemma added_app before after new :
  trace after = trace before ++ new -> Trace.added before after = new.
Proof. unfold Trace.added. intros ->. apply drop_app_length. Qed.

Lemma added_concrete b f tr b' f' new :
  Trace.added {| this := b; fs := f; trace := tr |}
              {| this := b'; fs := f'; trace := tr ++ new |} = new.
Proof. now apply added_app. Qed.

(** A capture returns, keeps the sniffer, and starts exactly one search;
    it neither launches nor closes a browser, creates no directory and
    never pauses between terms. *)
Lemma searchAndCapture_frame E t st :
  match WikiSniffer.searchAndCapture E t st with
  | (Normal r, st') =>
      this st' = this st
      /\ exists new, trace st' = trace st ++ new
         /\ Trace.searched new = [t]
         /\ forallb Trace.isQuiet new = true
         /\ existsb Trace.isBrokenPause new = false
  | (Thrown _, _) => False
  end.
Proof.
  destruct st as [[b c [p|]] files tr]; run_js.
  - repeat next_call;
      (split; [reflexivity|]); tidy_trace; eexists;
      (split; [reflexivity|]); repeat split; reflexivity.
  - split; [reflexivity|]. tidy_trace. eexists.
    split; [reflexivity|]. repeat split; reflexivity.
Qed.

(** The outcome of a capture, in full. *)
Lemma searchAndCapture_outcome E t st :
  exists result st' new,
    WikiSniffer.searchAndCapture E t st = (Normal result, st')
    /\ trace st' = trace st ++ new
    /\ match result with
       | Some p =>
           exists date img,
             p = WikiSniffer.filepath E t date
             /\ fs st' = <[p := File img]> (fs st)
             /\ In (Called (Screenshot p true) (Resolved img)) new
             /\ Trace.gestures (Trace.untilShot new) =
                  [Wheel 0 1500; WaitForTimeout 800; Wheel 0 1500;
                   WaitForTimeout 800; Wheel 0 1000; WaitForTimeout 500]
             /\ Trace.gestures new = Trace.gestures (Trace.untilShot new)
             /\ Trace.wheels new = [1500; 1500; 1000]%Z
             /\ forallb (fun ev => negb (Trace.isRejected ev)) new = true
             /\ Trace.errorShotsTried new = []
             /\ page (this st) <> None
       | None =>
           (exists msg, In (ConsoleError (MErrorProcessing t msg)) new)
           /\ (page (this st) = None \/ existsb Trace.isRejected new = true)
           /\ (length (Trace.errorShotsTried new) <= 1)%nat
           /\ (Trace.errorShotsWritten new = [] /\ fs st' = fs st
               \/ exists img,
                    Trace.errorShotsWritten new = [WikiSniffer.errorFilepath E t]
                    /\ fs st' = <[WikiSniffer.errorFilepath E t := File img]> (fs st))
           /\ (Trace.errorShotsFailed new = []
               \/ In (ConsoleLog MNoErrorShot) new)
       end.
Proof.
  destruct st as [[b c [p|]] files tr]; run_js.
  - repeat next_call; tidy_trace;
      do 3 eexists; (split; [reflexivity|]); (split; [reflexivity|]);
      cbn [this page fs].
    all: try (repeat split;
              [eexists; find_in | right; reflexivity | cbn; lia
              | first [left; split; reflexivity
                      | right; eexists; split; reflexivity]
              | first [left; reflexivity | right; find_in]]).
    do 2 eexists. repeat split; try reflexivity; [find_in|discriminate].
  - tidy_trace. do 3 eexists. split; [reflexivity|]. split; [reflexivity|].
    cbn [this page fs]. repeat split.
    + eexists; find_in.
    + now left.
    + cbn; lia.
    + left; split; reflexivity.
    + right; find_in.
Qed.

Lemma OUT_DIR_cwd E1 E2 :
  cwd E1 = cwd E2 -> WikiSniffer.OUT_DIR E1 = WikiSniffer.OUT_DIR E2.
Proof. unfold WikiSniffer.OUT_DIR. now intros ->. Qed.

Lemma capture_success E t st p st' :
  WikiSniffer.searchAndCapture E t st = (Normal (Some p), st') ->
  exists date img,
    p = WikiSniffer.filepath E t date
    /\ fs st' = <[p := File img]> (fs st)
    /\ (exists h, date = clock E h).
Proof.
  destruct st as [[b c [h|]] files tr]; run_js; [|discriminate].
  repeat next_call; try discriminate.
  intros [= <- <-]. cbn [fs]. eauto 6.
Qed.

Lemma capture_failure E t st st' :
  WikiSniffer.searchAndCapture E t st = (Normal None, st') ->
  fs st' = fs st
  \/ exists img, fs st' = <[WikiSniffer.errorFilepath E t := File img]> (fs st).
Proof.
  intros Hrun.
  destruct (searchAndCapture_outcome E t st)
    as (result & st1 & new & Hrun' & _ & H).
  rewrite Hrun in Hrun'. injection Hrun' as <- <-.
  destruct H as (_ & _ & _ & [[_ H]|[img [_ H]]] & _); eauto.
Qed.

(** X17. A captured path is never the empty string, so [!!result], the
    [success] flag of the batch, is true exactly when a path came
    back. *)
Lemma capture_truthy E t st result st' :
  WikiSniffer.searchAndCapture E t st = (Normal result, st') ->
  JS.truthy result = match result with Some _ => true | None => false end.
Proof.
  destruct result as [p|]; [|reflexivity]. intros Hrun.
  destruct (capture_success _ _ _ _ _ Hrun) as (date & _ & -> & _).
  pose proof (filepath_nonempty E t date) as Hne.
  now destruct (WikiSniffer.filepath E t date).
Qed.

End CaptureFacts.

(* ===================================================================== *)
(** ** The batch                                                          *)
(* ===================================================================== *)

Section BatchFacts.

Lemma searched_app a b :
  Trace.searched (a ++ b) = Trace.searched a ++ Trace.searched b.
Proof. apply omap_app. Qed.

Lemma summary_lines evs :
  forallb Trace.isSummary evs = true ->
  Trace.searched evs = [] /\ forallb Trace.isQuiet evs = true
  /\ existsb Trace.isBrokenPause evs = false
  /\ forallb (fun ev => negb (Trace.isCall ev)) evs = true.
Proof.
  induction evs as [|ev evs IH]; simpl; [auto|].
  intros H. apply andb_true_iff in H as [Hev Hevs].
  destruct (IH Hevs) as (H1 & H2 & H3 & H4).
  destruct ev as [? ?|[]|?]; try discriminate; cbn; auto.
Qed.

Lemma forEach_log {A} (f : A -> Msg) xs st :
  forEach (fun x => consoleLog (f x)) xs st
  = (Normal tt,
     {| this := this st; fs := fs st;
        trace := trace st ++ map (fun x => ConsoleLog (f x)) xs |}).
Proof.
  revert st. induction xs as [|x xs IH]; intros st; simpl.
  - rewrite app_nil_r. now destruct st.
  - unfold bind, consoleLog, emit. rewrite IH. cbn [this fs trace].
    now rewrite <- app_assoc.
Qed.

Lemma bullets_summary {A} (f : A -> jsstring) xs :
  forallb Trace.isSummary (map (fun x => ConsoleLog (MBullet (f x))) xs) = true.
Proof. induction xs; simpl; auto. Qed.

Lemma bind_log {B} m (k : unit -> M B) st :
  bind (consoleLog m) k st
  = k tt {| this := this st; fs := fs st;
            trace := trace st ++ [ConsoleLog m] |}.
Proof. reflexivity. Qed.

Lemma bind_ret {A B} (a : A) (k : A -> M B) st : bind (ret a) k st = k a st.
Proof. reflexivity. Qed.

Lemma bind_assoc {A B C} (m : M A) (k1 : A -> M B) (k2 : B -> M C) st :
  bind (bind m k1) k2 st = bind m (fun a => bind (k1 a) k2) st.
Proof. unfold bind. now destruct (m st) as [[a|e] st']. Qed.

Lemma bind_forEach_log {A B} (f : A -> Msg) xs (k : unit -> M B) st :
  bind (forEach (fun x => consoleLog (f x)) xs) k st
  = k tt {| this := this st; fs := fs st;
            trace := trace st ++ map (fun x => ConsoleLog (f x)) xs |}.
Proof. unfold bind at 1. now rewrite forEach_log. Qed.

(** The summary only prints. *)
Lemma printSummary_frame results st :
  exists new,
    WikiSniffer.printSummary results st
    = (Normal tt,
       {| this := this st; fs := fs st; trace := trace st ++ new |})
    /\ forallb Trace.isSummary new = true
    /\ In (ConsoleLog MAllDone) new.
Proof.
  unfold WikiSniffer.printSummary.
  set (ok := List.filter WikiSniffer.success results).
  set (ko := List.filter (fun r => negb (WikiSniffer.success r)) results).
  destruct (0 <? length ok)%nat;
    destruct (0 <? length results - length ok)%nat;
    repeat (first [rewrite bind_assoc | rewrite bind_log
                  | rewrite bind_forEach_log | rewrite bind_ret];
            cbv beta);
    unfold consoleLog, emit; cbn [this fs trace];
    tidy_trace; eexists; (split; [reflexivity|]);
    repeat (cbn [forallb Trace.isSummary andb];
            first [rewrite forallb_app | rewrite bullets_summary]);
    cbn [forallb Trace.isSummary andb];
    (split; [reflexivity|]);
    repeat (first [left; reflexivity | right | apply in_or_app]).
Qed.


(** The loop: every term of [rest] is searched, in order, unless a pause
    between two terms throws; then the loop stops after a prefix. *)
Lemma processLoop_frame E n rest : forall i results st,
  exists r st' new,
    WikiSniffer.processLoop E n i rest results st = (r, st')
    /\ this st' = this st
    /\ trace st' = trace st ++ new
    /\ forallb Trace.isQuiet new = true
    /\ match r with
       | Normal _ => Trace.searched new = rest
       | Thrown _ =>
           (exists rest', rest = Trace.searched new ++ rest')
           /\ (page (this st) <> None ->
               existsb Trace.isBrokenPause new = true)
       end.
Proof.
  induction rest as [|t rest IH]; intros i results st.
  - exists (Normal results), st, []. rewrite app_nil_r. now repeat split.
  - cbn [WikiSniffer.processLoop]. rewrite bind_log. cbv beta.
    unfold bind at 1.
    match goal with |- context [WikiSniffer.searchAndCapture E t ?s] =>
      pose proof (searchAndCapture_frame E t s) as Hcap;
      destruct (WikiSniffer.searchAndCapture E t s) as [[result|e] st2]
    end; [|contradiction].
    destruct Hcap as (Hthis & new1 & Htr & Hs & Hq & Hb).
    cbn [this trace] in Hthis, Htr.
    set (results' := results ++ _).
    assert (Hhead : forall evs,
              Trace.searched (ConsoleLog (MProcessing (i + 1) n t) :: new1 ++ evs)
              = t :: Trace.searched evs).
    { intros evs. change (Trace.searched (new1 ++ evs) = t :: Trace.searched evs).
      now rewrite searched_app, Hs. }
    destruct (Z.of_nat i <? Z.of_nat n - 1)%Z.
    + rewrite bind_assoc, bind_log. cbv beta. rewrite bind_assoc.
      unfold bind at 1. unfold on at 1. cbn [this]. rewrite Hthis.
      destruct (page (this st)) as [h|] eqn:Hpage.
      * unfold call. cbn [answer trace fs this effect].
        destruct (respond E _ _) as [v|e].
        -- rewrite bind_ret. cbv beta.
           match goal with |- context [WikiSniffer.processLoop E n (S i) rest results' ?s] =>
             destruct (IH (S i) results' s)
               as (r & st' & new2 & Hrun & Ht2 & Htr2 & Hq2 & Hm)
           end.
           cbn [this trace] in Ht2, Htr2.
           exists r, st',
             (ConsoleLog (MProcessing (i + 1) n t) :: new1
              ++ [ConsoleLog MWaiting;
                  Called (WaitForTimeout 2000) (Resolved v)] ++ new2).
           split; [exact Hrun|]. split; [congruence|].
           split; [rewrite Htr2, Htr; now rewrite <- !app_assoc|].
           split; [cbn; rewrite forallb_app, Hq; cbn; exact Hq2|].
           rewrite Hhead, searched_app.
           change (Trace.searched [_; _]) with (@nil (list N)). cbn [app].
           destruct r as [a|e].
           ++ now rewrite Hm.
           ++ destruct Hm as [[rest' Hrest] Hbroken]. split.
              ** exists rest'. now rewrite Hrest at 1.
              ** intros _. cbn. rewrite existsb_app. cbn.
                 rewrite Hbroken, orb_true_r; [reflexivity|].
                 cbn [this]. rewrite Hpage. discriminate.
        -- eexists (Thrown e), _,
             (ConsoleLog (MProcessing (i + 1) n t) :: new1
              ++ [ConsoleLog MWaiting;
                  Called (WaitForTimeout 2000) (Rejected e)]).
           split; [reflexivity|]. cbn [this trace].
           split; [first [exact Hthis | reflexivity]|].
           split; [rewrite Htr; now rewrite <- !app_assoc|].
           split; [cbn; rewrite forallb_app, Hq; reflexivity|].
           rewrite Hhead. split.
           ++ now exists rest.
           ++ intros _. cbn. rewrite existsb_app. cbn. apply orb_true_r.
      * eexists (Thrown TypeError), _,
          (ConsoleLog (MProcessing (i + 1) n t) :: new1 ++ [ConsoleLog MWaiting]).
        split; [reflexivity|]. cbn [this trace].
        split; [first [exact Hthis | reflexivity]|].
        split; [rewrite Htr; now rewrite <- !app_assoc|].
        split; [cbn; rewrite forallb_app, Hq; reflexivity|].
        rewrite Hhead. split; [now exists rest|]. congruence.
    + rewrite bind_ret. cbv beta.
      destruct (IH (S i) results' st2)
        as (r & st' & new2 & Hrun & Ht2 & Htr2 & Hq2 & Hm).
      exists r, st', (ConsoleLog (MProcessing (i + 1) n t) :: new1 ++ new2).
      split; [exact Hrun|]. split; [congruence|].
      split; [rewrite Htr2, Htr; now rewrite <- !app_assoc|].
      split; [cbn; rewrite forallb_app, Hq; exact Hq2|].
      rewrite Hhead. destruct r as [a|e].
      * now rewrite Hm.
      * destruct Hm as [[rest' Hrest] Hbroken]. split.
        -- exists rest'. now rewrite Hrest at 1.
        -- intros Hp. cbn. rewrite existsb_app.
           rewrite Hbroken, orb_true_r; [reflexivity|]. now rewrite Hthis.
Qed.

(** The batch: it never throws, and searches a prefix of the terms of the
    file, all of them unless a pause between two terms was rejected. *)
Lemma processTermsFromFile_frame E filePath st :
  exists st' new,
    WikiSniffer.processTermsFromFile E filePath st = (Normal tt, st')
    /\ this st' = this st
    /\ trace st' = trace st ++ new
    /\ forallb Trace.isQuiet new = true
    /\ forall content,
         fs st !! filePath = Some (File content) ->
         (exists rest',
            WikiSniffer.parseTerms content = Trace.searched new ++ rest')
         /\ (page (this st) <> None ->
             existsb Trace.isBrokenPause new = false ->
             Trace.searched new = WikiSniffer.parseTerms content).
Proof.
  unfold WikiSniffer.processTermsFromFile, tryCatch.
  rewrite bind_log. cbv beta. unfold bind at 1.
  unfold call. cbn [answer fs trace this effect].
  destruct (fs st !! filePath) as [[|content]|] eqn:Hfile.
  - unfold consoleError, emit. cbn [this fs trace].
    do 2 eexists. split; [reflexivity|]. cbn [this trace]. tidy_trace.
    repeat split; try reflexivity; discriminate.
  - rewrite bind_log. cbv beta. unfold bind at 1.
    set (terms := WikiSniffer.parseTerms content).
    match goal with |- context [WikiSniffer.processLoop E _ 0 terms [] ?s] =>
      destruct (processLoop_frame E (length terms) terms 0 [] s)
        as (r & st1 & new1 & Hrun & Hthis & Htr & Hq & Hm)
    end.
    rewrite Hrun. cbn [this trace] in Hthis, Htr, Hm.
    assert (Hpre : forall evs,
              Trace.searched
                (ConsoleLog (MReading filePath)
                 :: Called (ReadFile filePath) (Resolved content)
                 :: ConsoleLog (MFound (length terms)) :: new1 ++ evs)
              = Trace.searched new1 ++ Trace.searched evs).
    { intros evs.
      change (Trace.searched (new1 ++ evs)
              = Trace.searched new1 ++ Trace.searched evs).
      apply searched_app. }
    destruct r as [results|e].
    + destruct (printSummary_frame results st1) as (new2 & Hps & Hsum & _).
      rewrite Hps.
      destruct (summary_lines _ Hsum) as (Hs2 & Hq2 & Hb2 & _).
      eexists _, (ConsoleLog (MReading filePath)
                  :: Called (ReadFile filePath) (Resolved content)
                  :: ConsoleLog (MFound (length terms)) :: new1 ++ new2).
      split; [reflexivity|]. cbn [this trace].
      split; [exact Hthis|].
      split; [rewrite Htr; now rewrite <- !app_assoc|].
      split; [cbn; rewrite forallb_app, Hq; exact Hq2|].
      intros content' [= <-]. rewrite Hpre, Hs2, app_nil_r, Hm.
      split; [exists []; now rewrite app_nil_r|reflexivity].
    + unfold consoleError, emit. cbn [this fs trace].
      eexists _, (ConsoleLog (MReading filePath)
                  :: Called (ReadFile filePath) (Resolved content)
                  :: ConsoleLog (MFound (length terms)) :: new1
                  ++ [ConsoleError (MErrorReading (message e))]).
      split; [reflexivity|]. cbn [this trace].
      split; [exact Hthis|].
      split; [rewrite Htr; now rewrite <- !app_assoc|].
      split; [cbn; rewrite forallb_app, Hq; reflexivity|].
      intros content' [= <-]. rewrite Hpre. cbn [Trace.searched omap].
      rewrite app_nil_r. destruct Hm as [Hprefix Hbroken]. split.
      * exact Hprefix.
      * intros Hpage Hnone. exfalso.
        cbn in Hnone. rewrite existsb_app in Hnone.
        rewrite Hbroken in Hnone; [discriminate|exact Hpage].
  - unfold consoleError, emit. cbn [this fs trace].
    do 2 eexists. split; [reflexivity|]. cbn [this trace]. tidy_trace.
    repeat split; try reflexivity; discriminate.
Qed.

End BatchFacts.

(* ===================================================================== *)
(** ** The session: start, run, close                                     *)
(* ===================================================================== *)

Section SessionFacts.

Ltac next_lookup :=
  match goal with
  | |- context [@lookup _ _ (gmap (list N) Node) _ ?k ?m] =>
      destruct (@lookup _ _ (gmap (list N) Node) _ k m) as [[|?]|] eqn:?; run_js
  end.

(** The directory step when something is already there: one [access],
    nothing else, no error. *)
Lemma ensureOutDir_present E st node :
  fs st !! WikiSniffer.OUT_DIR E = Some node ->
  WikiSniffer.ensureOutDir E st
  = (Normal tt,
     {| this := this st; fs := fs st;
        trace := trace st
                 ++ [Called (Access (WikiSniffer.OUT_DIR E)) (Resolved [])] |}).
Proof.
  destruct st as [s files tr]. cbn [fs this trace]. intros H.
  run_js. now rewrite H.
Qed.

(** The directory step when nothing is there: [access] is rejected,
    [mkdir] is issued, and its outcome is the outcome of the step. *)
Lemma ensureOutDir_absent E st :
  fs st !! WikiSniffer.OUT_DIR E = None ->
  exists resp,
    let tried :=
      [Called (Access (WikiSniffer.OUT_DIR E)) (Rejected ENOENT);
       Called (Mkdir (WikiSniffer.OUT_DIR E) true) resp] in
    match resp with
    | Resolved _ =>
        WikiSniffer.ensureOutDir E st
        = (Normal tt,
           {| this := this st;
              fs := <[WikiSniffer.OUT_DIR E := Dir]> (fs st);
              trace := trace st ++ tried
                       ++ [ConsoleLog (MCreatedDir (WikiSniffer.OUT_DIR E))] |})
    | Rejected e =>
        WikiSniffer.ensureOutDir E st
        = (Thrown e,
           {| this := this st; fs := fs st; trace := trace st ++ tried |})
    end.
Proof.
  destruct st as [s files tr]. cbn [fs this trace]. intros H.
  run_js. rewrite H. run_js. rewrite H.
  match goal with |- context [respond E ?h ?c] =>
    exists (respond E h c); destruct (respond E h c) end;
    run_js; tidy_trace; reflexivity.
Qed.

(** X18. Running the directory step a second time changes nothing on
    disk and creates nothing: it only asks [access] again. *)
Lemma ensureOutDir_idempotent E st st1 :
  WikiSniffer.ensureOutDir E st = (Normal tt, st1) ->
  exists st2,
    WikiSniffer.ensureOutDir E st1 = (Normal tt, st2)
    /\ fs st2 = fs st1
    /\ Trace.added st1 st2
       = [Called (Access (WikiSniffer.OUT_DIR E)) (Resolved [])].
Proof.
  intros Hrun.
  assert (Hsome : is_Some (fs st1 !! WikiSniffer.OUT_DIR E)).
  { destruct (fs st !! WikiSniffer.OUT_DIR E) as [node|] eqn:Hfs.
    - rewrite (ensureOutDir_present _ _ _ Hfs) in Hrun.
      injection Hrun as <-. cbn [fs]. now rewrite Hfs.
    - destruct (ensureOutDir_absent E st Hfs) as [[v|e] Hstep];
        cbv zeta in Hstep; rewrite Hstep in Hrun; [|discriminate].
      injection Hrun as <-. cbn [fs]. rewrite lookup_insert_eq. eauto. }
  destruct Hsome as [node Hnode].
  rewrite (ensureOutDir_present _ _ _ Hnode). eexists. split; [reflexivity|].
  split; [reflexivity|]. now apply added_app.
Qed.

Lemma initialize_frame E st :
  exists r st' new,
    WikiSniffer.initialize E st = (r, st')
    /\ trace st' = trace st ++ new
    /\ forallb (fun ev => negb (Trace.isClose ev) && negb (Trace.isCapture ev))
         new = true
    /\ (length (List.filter Trace.isMkdir new) <= 1)%nat
    /\ (existsb Trace.isLaunched new = true /\ browser (this st') = Some Handle
        \/ existsb Trace.isLaunched new = false /\ this st' = this st
           /\ exists e, r = Thrown e)
    /\ (existsb Trace.isMkdir new = true ->
        fs st !! WikiSniffer.OUT_DIR E = None)
    /\ match r with
       | Normal _ =>
           page (this st') = Some Handle
           /\ is_Some (fs st' !! WikiSniffer.OUT_DIR E)
           /\ (fs st !! WikiSniffer.OUT_DIR E = None ->
               fs st' !! WikiSniffer.OUT_DIR E = Some Dir)
           /\ (is_Some (fs st !! WikiSniffer.OUT_DIR E) -> fs st' = fs st)
       | Thrown _ => True
       end.
Proof.
  destruct st as [[b c p] files tr]. run_js.
  repeat first [next_call | next_lookup];
    tidy_trace; do 3 eexists;
    (split; [reflexivity|]); cbn [this fs trace browser page];
    (split; [reflexivity|]);
    (split; [reflexivity|]);
    (split; [cbn; lia|]);
    (split; [first [left; split; reflexivity
                   | right; split; [reflexivity|]; split; [reflexivity|]; eauto]|]);
    (split; [first [intros _; assumption | discriminate]|]);
    try exact I.
  all: repeat split; eauto; try congruence;
    try (now rewrite lookup_insert_eq); try (intros [? ?]; congruence).
Qed.

(** Closing: a no-op without a browser, one [close] call with one. *)
Lemma close_frame E st :
  match browser (this st) with
  | None => WikiSniffer.close E st = (Normal tt, st)
  | Some _ =>
      exists r resp,
        WikiSniffer.close E st
        = (r, {| this := this st; fs := fs st;
                 trace := trace st
                          ++ [ConsoleLog MClosing; Called BrowserClose resp] |})
  end.
Proof.
  destruct st as [[[h|] c p] files tr]; run_js; [|reflexivity].
  match goal with |- context [respond E ?h ?c] =>
    exists (match respond E h c with
            | Resolved _ => Normal tt | Rejected e => Thrown e end),
           (respond E h c);
    destruct (respond E h c) end; run_js; tidy_trace; reflexivity.
Qed.

End SessionFacts.

Section MainFacts.

(** What runs between [initialize] and [close]: a batch when the input
    is an entry of the file system, a single capture otherwise. *)
Lemma dispatch_frame E input st :
  exists st' new,
    tryCatch
      (call E (Access input) >> WikiSniffer.processTermsFromFile E input)
      (fun _ => consoleLog MSingle >>
                WikiSniffer.searchAndCapture E input >> ret tt) st
    = (Normal tt, st')
    /\ this st' = this st
    /\ trace st' = trace st ++ new
    /\ forallb Trace.isQuiet new = true.
Proof.
  unfold tryCatch. unfold bind at 1. unfold call.
  cbn [answer fs trace this effect].
  destruct (fs st !! input) as [node|].
  - match goal with |- context [WikiSniffer.processTermsFromFile E input ?s] =>
      destruct (processTermsFromFile_frame E input s)
        as (st' & new & Hrun & Hthis & Htr & Hq & _)
    end.
    rewrite Hrun. cbn [this trace] in Hthis, Htr.
    exists st', (Called (Access input) (Resolved []) :: new).
    repeat split; auto. rewrite Htr. now rewrite <- app_assoc.
  - rewrite bind_log. cbv beta. unfold bind at 1.
    match goal with |- context [WikiSniffer.searchAndCapture E input ?s] =>
      pose proof (searchAndCapture_frame E input s) as Hcap;
      destruct (WikiSniffer.searchAndCapture E input s) as [[result|e] st']
    end; [|contradiction].
    destruct Hcap as (Hthis & new & Htr & _ & Hq & _).
    cbn [this trace] in Hthis, Htr. unfold ret.
    exists st', (Called (Access input) (Rejected ENOENT)
                 :: ConsoleLog MSingle :: new).
    repeat split; auto. rewrite Htr. now rewrite <- !app_assoc.
Qed.

(** A run with an argument, in three parts: what [initialize] did, what
    the captures did, what [close] did. *)
Lemma main_frame E input args st :
  exists r st' started ran closed,
    WikiSniffer.main E (input :: args) st = (r, st')
    /\ trace st' = trace st ++ started ++ ran ++ closed
    /\ forallb (fun ev => negb (Trace.isClose ev) && negb (Trace.isCapture ev))
         started = true
    /\ (length (List.filter Trace.isMkdir started) <= 1)%nat
    /\ (existsb Trace.isMkdir started = true ->
        fs st !! WikiSniffer.OUT_DIR E = None)
    /\ forallb Trace.isQuiet ran = true
    /\ (existsb Trace.isLaunched started = true
        /\ (exists resp, closed = [ConsoleLog MClosing; Called BrowserClose resp])
        \/ existsb Trace.isLaunched started = false
           /\ forallb (fun ev => negb (Trace.isCall ev)) ran = true
           /\ closed = []).
Proof.
  unfold WikiSniffer.main. unfold bind at 1. unfold setThis.
  unfold tryFinally. unfold tryCatch at 1. unfold bind at 1.
  match goal with |- context [WikiSniffer.initialize E ?s] =>
    destruct (initialize_frame E s)
      as (r1 & st1 & started & Hinit & Htr1 & Hshape & Hmk & Hlaunch & Hmk' & Hpost)
  end.
  rewrite Hinit. cbn [this fs trace] in *.
  destruct r1 as [[]|e].
  - destruct Hlaunch as [[Hl Hb]|(_ & _ & e & He)]; [|discriminate].
    destruct (dispatch_frame E input st1) as (st2 & ran & Hrun & Hthis2 & Htr2 & Hq2).
    rewrite Hrun.
    pose proof (close_frame E st2) as Hc. rewrite Hthis2, Hb in Hc.
    destruct Hc as (r & resp & Hc). rewrite Hc.
    exists (match r with Normal _ => Normal tt | Thrown e => Thrown e end).
    eexists _, started, ran, [ConsoleLog MClosing; Called BrowserClose resp].
    split; [now destruct r|]. cbn [trace].
    split; [rewrite Htr2, Htr1; now rewrite <- !app_assoc|].
    repeat split; auto. left. eauto.
  - unfold consoleError, emit.
    set (st2 := {| this := this st1; fs := fs st1;
                   trace := trace st1 ++ [ConsoleError (MFatal e)] |}).
    pose proof (close_frame E st2) as Hc. unfold st2 in Hc at 1. cbn [this] in Hc.
    destruct Hlaunch as [[Hl Hb]|(Hl & Hfresh & _)].
    + rewrite Hb in Hc. destruct Hc as (r & resp & Hc). rewrite Hc.
      exists (match r with Normal _ => Normal tt | Thrown e' => Thrown e' end).
      eexists _, started, [ConsoleError (MFatal e)],
        [ConsoleLog MClosing; Called BrowserClose resp].
      split; [now destruct r|]. subst st2. cbn [trace].
      split; [rewrite Htr1; now rewrite <- !app_assoc|].
      repeat split; auto. left. eauto.
    + rewrite Hfresh in Hc. cbn [browser] in Hc. rewrite Hc.
      exists (Normal tt), st2, started, [ConsoleError (MFatal e)], [].
      split; [reflexivity|]. subst st2. cbn [trace].
      split; [rewrite Htr1; now rewrite <- !app_assoc|].
      repeat split; auto.
Qed.
End MainFacts.

(* ===================================================================== *)
(** ** The demo script                                                    *)
(* ===================================================================== *)

Section DemoFacts.

(** The demo script scrolls twice when it gets that far, and calls
    [browser.close()] exactly when no earlier call was rejected. *)
Lemma demo_outcome E st :
  match Demo.main E st with
  | (r, st') =>
      let new := Trace.added st st' in
      existsb Trace.isClose new
      = forallb (fun ev => Trace.isClose ev || negb (Trace.isRejected ev)) new
      /\ match r with
         | Normal _ =>
             Trace.wheels new = [2000; 2000]%Z
             /\ Trace.gestures new
                = [Wheel 0 2000; WaitForTimeout 1000;
                   Wheel 0 2000; WaitForTimeout 1000]
         | Thrown _ => existsb Trace.isRejected new = true
         end
  end.
Proof.
  destruct st as [s files tr]. unfold Demo.main. run_js.
  repeat next_call; tidy_trace; rewrite added_concrete;
    repeat split; reflexivity.
Qed.

End DemoFacts.

(* ===================================================================== *)
(** ** The examples of the specification                                  *)
(* ===================================================================== *)

Section Examples.

(** The term "Boxing" on a reachable network: three gestures, and a file
    [boxing_<date>.png] in the output directory. *)
Example boxing_is_captured :
  let '(r, st') := WikiSniffer.searchAndCapture Sample.calm (JS.lit "Boxing")
                     Sample.started in
  let p := JS.lit "/home/user/wikisniffer/snapshots/boxing_2026-11-03.png" in
  r = Normal (Some p)
  /\ fs st' !! p = Some (File [])
  /\ Trace.wheels (trace st') = [1500; 1500; 1000]%Z.
Proof. vm_compute. auto. Qed.

(** A file of three lines, the second one blank, holds two terms. *)
Example blank_line_is_skipped :
  WikiSniffer.parseTerms (JS.lit "a" ++ [10; 10] ++ JS.lit "b")
  = [JS.lit "a"; JS.lit "b"].
Proof. reflexivity. Qed.

(** A selector that never appears: no path, and a viewport screenshot
    [error_zzqx__nonexistent.png]. *)
Example timeout_leaves_error_screenshot :
  let '(r, st') := WikiSniffer.searchAndCapture Sample.timeout
                     (JS.lit "Zzqx__nonexistent") Sample.started in
  let p := JS.lit "/home/user/wikisniffer/snapshots/error_zzqx__nonexistent.png" in
  r = Normal None
  /\ fs st' !! p = Some (File [])
  /\ Trace.errorShotsWritten (trace st') = [p].
Proof. vm_compute. auto. Qed.

End Examples.

(* ===================================================================== *)
(** ** The properties of the specification                                *)
(* ===================================================================== *)

Section Claims.

(** C1. [searchAndCapture] never throws: for every term and every state
    it returns, with the output file path when no call was rejected, and
    with [null] otherwise, after logging the error it caught. *)
Theorem searchAndCapture_never_throws E t st :
  exists result st',
    WikiSniffer.searchAndCapture E t st = (Normal result, st')
    /\ match result with
       | Some p =>
           (exists date, p = WikiSniffer.filepath E t date)
           /\ forallb (fun ev => negb (Trace.isRejected ev))
                (Trace.added st st') = true
       | None =>
           (exists msg, In (ConsoleError (MErrorProcessing t msg))
                          (Trace.added st st'))
           /\ (page (this st) = None
               \/ existsb Trace.isRejected (Trace.added st st') = true)
       end.
Proof.
  destruct (searchAndCapture_outcome E t st)
    as (result & st' & new & Hrun & Htr & H).
  exists result, st'. split; [exact Hrun|].
  rewrite (added_app _ _ _ Htr). destruct result as [p|].
  - destruct H as (date & img & Hp & _ & _ & _ & _ & _ & Hok & _). eauto.
  - destruct H as (Hlog & Hwhy & _). auto.
Qed.

(** C4, corrected. The file name of a successful capture is the
    sanitized term, an underscore, the date stamp and [.png]. The
    sanitized term is the term with every code unit outside [A-Za-z0-9]
    replaced by an underscore and the letters lower-cased, so it holds
    only [a-z0-9_]; the date stamp holds digits and hyphens (and a sign
    for a year outside 0..9999), so the name always holds a hyphen. *)
Theorem filename_characters E t d :
  WikiSniffer.filename E t d
  = map Spec.sanitizeUnit t ++ [JS.underscore] ++ JSDate.isoDay d
    ++ JS.lit ".png"
  /\ Forall (fun c => Spec.plain c = true) (map Spec.sanitizeUnit t)
  /\ Forall (fun c => Spec.dateChar c = true) (JSDate.isoDay d)
  /\ In 45 (JSDate.isoDay d)
  /\ WikiSniffer.filepath E t d
     = WikiSniffer.OUT_DIR E ++ Path.slash :: WikiSniffer.filename E t d.
Proof.
  split; [unfold WikiSniffer.filename;
          now rewrite sanitizedTerm_pointwise, timestamp_isoDay|].
  split; [rewrite <- (sanitizedTerm_pointwise E); apply sanitizedTerm_plain|].
  split; [apply isoDay_dateChar|].
  split; [rewrite <- timestamp_isoDay; apply timestamp_hyphen|].
  apply filepath_in_OUT_DIR.
Qed.

(** C4 as stated fails: the name made for the term "a b" holds hyphens,
    which are not in [a-z0-9_]. *)
Lemma filename_holds_hyphen :
  (exists c, In c (JS.lit "a b") /\ JS.isAlnum c = false)
  /\ exists stem,
       WikiSniffer.filename Sample.calm (JS.lit "a b") Sample.today
       = stem ++ JS.lit ".png"
       /\ stem = JS.lit "a_b_2026-11-03"
       /\ ~ Forall (fun c => Spec.plain c = true) stem.
Proof.
  split.
  - exists 32. split; [vm_compute; tauto|reflexivity].
  - exists (JS.lit "a_b_2026-11-03"). split; [reflexivity|]. split; [reflexivity|].
    intros H. rewrite List.Forall_forall in H.
    specialize (H 45). discriminate H. vm_compute. tauto.
Qed.

(** C5. A capture that succeeds returns a path directly under the output
    directory that ends in [.png], and takes no error screenshot. A
    capture that fails returns no path; it tries at most one error
    screenshot, whose file is [error_<name>.png] under the output
    directory, and when that screenshot is rejected too this is logged
    and nothing is thrown. *)
Theorem capture_paths E t st :
  exists result st',
    WikiSniffer.searchAndCapture E t st = (Normal result, st')
    /\ let new := Trace.added st st' in
       match result with
       | Some p =>
           JS.endsWith (JS.lit ".png") p
           /\ (exists name,
                 p = WikiSniffer.OUT_DIR E ++ Path.slash :: name
                 /\ Path.isName name)
           /\ Trace.errorShotsTried new = []
       | None =>
           (length (Trace.errorShotsTried new) <= 1)%nat
           /\ (Trace.errorShotsWritten new = [] /\ fs st' = fs st
               \/ exists img,
                    Trace.errorShotsWritten new = [WikiSniffer.errorFilepath E t]
                    /\ fs st'
                       = <[WikiSniffer.errorFilepath E t := File img]> (fs st))
           /\ (Trace.errorShotsFailed new = []
               \/ In (ConsoleLog MNoErrorShot) new)
           /\ exists name,
                WikiSniffer.errorFilepath E t
                = WikiSniffer.OUT_DIR E ++ Path.slash :: name
                /\ Path.isName name
                /\ JS.startsWith (JS.lit "error_") name
                /\ JS.endsWith (JS.lit ".png") name
       end.
Proof.
  destruct (searchAndCapture_outcome E t st)
    as (result & st' & new & Hrun & Htr & H).
  exists result, st'. split; [exact Hrun|].
  rewrite (added_app _ _ _ Htr). cbv zeta. destruct result as [p|].
  - destruct H as (date & img & -> & _ & _ & _ & _ & _ & _ & Hnone & _).
    rewrite filepath_in_OUT_DIR. repeat split.
    + exists (WikiSniffer.OUT_DIR E ++ Path.slash
              :: WikiSniffer.sanitizedTerm E t ++ [JS.underscore]
              ++ WikiSniffer.timestamp date).
      unfold WikiSniffer.filename.
      rewrite <- !app_assoc. cbn [app]. now rewrite <- !app_assoc.
    + exists (WikiSniffer.filename E t date).
      split; [reflexivity|apply filename_isName].
    + exact Hnone.
  - destruct H as (_ & _ & Hone & Hfs & Hlog). repeat split; auto.
    exists (WikiSniffer.errorFilename E t).
    split; [apply errorFilepath_in_OUT_DIR|].
    split; [apply errorFilename_isName|].
    unfold WikiSniffer.errorFilename. split.
    + now exists (WikiSniffer.sanitizedTerm E t ++ JS.lit ".png").
    + exists (JS.lit "error_" ++ WikiSniffer.sanitizedTerm E t).
      now rewrite <- app_assoc.
Qed.

(** C6, corrected. A successful capture of wikisniffer.js makes exactly
    three wheel gestures before the screenshot, of 1500, 1500 and 1000
    pixels (never growing, the first two equal), each followed by a pause
    (800, 800 and 500 ms). The demo script, when it succeeds, makes two
    gestures of 2000 pixels, each followed by a pause of 1000 ms. *)
Theorem capture_gestures E t st :
  (forall p st',
     WikiSniffer.searchAndCapture E t st = (Normal (Some p), st') ->
     let new := Trace.added st st' in
     Trace.gestures (Trace.untilShot new)
     = [Wheel 0 1500; WaitForTimeout 800; Wheel 0 1500; WaitForTimeout 800;
        Wheel 0 1000; WaitForTimeout 500]
     /\ Trace.gestures new = Trace.gestures (Trace.untilShot new)
     /\ Trace.wheels new = [1500; 1500; 1000]%Z
     /\ exists img, In (Called (Screenshot p true) (Resolved img)) new)
  /\ (forall st', Demo.main E st = (Normal tt, st') ->
      Trace.wheels (Trace.added st st') = [2000; 2000]%Z
      /\ Trace.gestures (Trace.added st st')
         = [Wheel 0 2000; WaitForTimeout 1000;
            Wheel 0 2000; WaitForTimeout 1000]).
Proof.
  split.
  - intros p st' Hrun.
    destruct (searchAndCapture_outcome E t st)
      as (result & st1 & new & Hrun' & Htr & H).
    rewrite Hrun in Hrun'. injection Hrun' as <- <-.
    rewrite (added_app _ _ _ Htr). cbv zeta.
    destruct H as (date & img & _ & _ & Hin & Hg & Hg' & Hw & _). eauto 6.
  - intros st' Hrun. pose proof (demo_outcome E st) as H.
    rewrite Hrun in H. apply H.
Qed.

(** The capture of "Boxing" and the demo script, when every call
    resolves. *)
Lemma capture_gestures_witness :
  Trace.wheels
    (Trace.added Sample.started
       (snd (WikiSniffer.searchAndCapture Sample.calm (JS.lit "Boxing")
               Sample.started)))
  = [1500; 1500; 1000]%Z
  /\ Trace.wheels
       (Trace.added Sample.started (snd (Demo.main Sample.calm Sample.started)))
     = [2000; 2000]%Z.
Proof.
  destruct (capture_gestures Sample.calm (JS.lit "Boxing") Sample.started)
    as [Hcap Hdemo].
  split.
  - apply (Hcap (WikiSniffer.filepath Sample.calm (JS.lit "Boxing") Sample.today)).
    vm_compute. reflexivity.
  - apply (Hdemo (snd (Demo.main Sample.calm Sample.started))).
    vm_compute. reflexivity.
Defined.

(** C6 as stated fails: the first two gestures of a successful capture
    are equal, so the magnitudes do not decrease; and the demo script
    makes two gestures, not three. *)
Lemma gestures_not_decreasing :
  ~ (forall E t st p st',
       WikiSniffer.searchAndCapture E t st = (Normal (Some p), st') ->
       exists a b c,
         Trace.wheels (Trace.added st st') = [a; b; c]
         /\ (a > b)%Z /\ (b > c)%Z)
  /\ ~ (forall E st st',
          Demo.main E st = (Normal tt, st') ->
          length (Trace.wheels (Trace.added st st')) = 3%nat).
Proof.
  split; intros H.
  - destruct (H Sample.calm (JS.lit "Boxing") Sample.started
                (WikiSniffer.filepath Sample.calm (JS.lit "Boxing") Sample.today)
                (snd (WikiSniffer.searchAndCapture Sample.calm (JS.lit "Boxing")
                        Sample.started)))
      as (a & b & c & Hw & Hab & _).
    + vm_compute. reflexivity.
    + vm_compute in Hw. injection Hw as <- <- _. lia.
  - specialize (H Sample.calm Sample.started
                  (snd (Demo.main Sample.calm Sample.started))).
    vm_compute in H. specialize (H eq_refl). discriminate.
Qed.


(** C3, corrected. For a readable input file and an initialized
    sniffer, the batch returns, and the terms it searches are, in order
    and with duplicates, a prefix of the nonblank lines of the file,
    trimmed; they are all of them, as many and in the same order, unless
    the pause between two terms was rejected, which ends the batch. *)
Theorem batch_searches_terms E filePath content st :
  fs st !! filePath = Some (File content) ->
  page (this st) <> None ->
  exists st',
    WikiSniffer.processTermsFromFile E filePath st = (Normal tt, st')
    /\ let found := Trace.searched (Trace.added st st') in
       (exists rest, Spec.nonblankTrimmedLines content = found ++ rest)
       /\ (existsb Trace.isBrokenPause (Trace.added st st') = false ->
           found = Spec.nonblankTrimmedLines content
           /\ length found = length (Spec.nonblankTrimmedLines content))
       /\ JS.join [10] (JS.split 10 content) = content
       /\ Forall (fun line => ~ In 10 line) (JS.split 10 content).
Proof.
  intros Hfile Hpage.
  destruct (processTermsFromFile_frame E filePath st)
    as (st' & new & Hrun & _ & Htr & _ & Hterms).
  exists st'. split; [exact Hrun|].
  rewrite (added_app _ _ _ Htr). cbv zeta.
  destruct (Hterms content Hfile) as [Hprefix Hall].
  rewrite parseTerms_spec in *.
  split; [exact Hprefix|].
  split; [intros Hb; now rewrite (Hall Hpage Hb)|].
  split; [apply join_split|apply split_pieces].
Qed.

(** A file of three lines, the second one blank, when every call
    resolves. *)
Lemma batch_searches_terms_witness :
  Trace.searched
    (Trace.added Sample.withTerms
       (snd (WikiSniffer.processTermsFromFile Sample.calm (JS.lit "terms.txt")
               Sample.withTerms)))
  = [JS.lit "a"; JS.lit "b"].
Proof.
  destruct (batch_searches_terms Sample.calm (JS.lit "terms.txt")
              (JS.lit "a" ++ [10; 10] ++ JS.lit "b") Sample.withTerms)
    as (st' & Hrun & _ & Hall & _).
  - vm_compute. reflexivity.
  - vm_compute. discriminate.
  - rewrite Hrun. cbn [snd]. apply Hall.
    apply (f_equal snd) in Hrun. cbn [snd] in Hrun. rewrite <- Hrun.
    vm_compute. reflexivity.
Defined.

(** C3 as stated fails: when the page is closed during the pause after
    the first term, the batch stops there, and the second nonblank line
    of the file is never searched. *)
Lemma batch_stops_at_broken_pause :
  let content := JS.lit "a" ++ [10; 10] ++ JS.lit "b" in
  let st' := snd (WikiSniffer.processTermsFromFile Sample.closing
                    (JS.lit "terms.txt") Sample.withTerms) in
  fs Sample.withTerms !! JS.lit "terms.txt" = Some (File content)
  /\ Spec.nonblankTrimmedLines content = [JS.lit "a"; JS.lit "b"]
  /\ Trace.searched (Trace.added Sample.withTerms st') = [JS.lit "a"]
  /\ In (ConsoleError (MErrorReading (message Sample.closed)))
        (Trace.added Sample.withTerms st').
Proof.
  cbv zeta. split; [vm_compute; reflexivity|].
  split; [vm_compute; reflexivity|].
  split; [vm_compute; reflexivity|].
  vm_compute. repeat (first [left; reflexivity | right]).
Qed.

(** C8. Without arguments the script prints the usage text and exits
    with code 0; it launches no browser, creates no directory and
    attempts no capture: the usage line is the only event, and neither
    the sniffer nor the file system changes. *)
Theorem no_arguments_prints_usage E st :
  exists st',
    WikiSniffer.script E [] st = (0, st')
    /\ Trace.added st st' = [ConsoleLog MUsage]
    /\ existsb Trace.isCall (Trace.added st st') = false
    /\ this st' = this st
    /\ fs st' = fs st.
Proof.
  exists {| this := this st; fs := fs st;
            trace := trace st ++ [ConsoleLog MUsage] |}.
  split; [reflexivity|].
  rewrite added_app with (new := [ConsoleLog MUsage]) by reflexivity.
  repeat split.
Qed.

Lemma quiet_not_launched evs :
  forallb Trace.isQuiet evs = true ->
  existsb Trace.isLaunched evs = false /\ existsb Trace.isClose evs = false
  /\ existsb Trace.isMkdir evs = false.
Proof.
  induction evs as [|ev evs IH]; simpl; [auto|].
  intros H. apply andb_true_iff in H as [Hev Hevs].
  destruct (IH Hevs) as (H1 & H2 & H3). rewrite H1, H2, H3.
  unfold Trace.isQuiet, Trace.isLifecycle in Hev.
  apply negb_true_iff in Hev.
  apply orb_false_iff in Hev as [Hev Hm].
  apply orb_false_iff in Hev as [Hl Hc].
  now rewrite Hl, Hc, Hm.
Qed.

(** C2, corrected. Every execution of wikisniffer.js in which a browser
    was launched calls [browser.close()] afterwards, as the last call of
    the run, whether the captures succeeded, failed or [initialize]
    threw; the script then exits with code 0. The demo script has no
    such guarantee: it reaches [browser.close()] only when no earlier
    call was rejected. *)
Theorem launched_browser_is_closed E :
  (forall args st code st',
     WikiSniffer.script E args st = (code, st') ->
     existsb Trace.isLaunched (Trace.added st st') = true ->
     code = 0
     /\ exists before resp after,
          Trace.added st st' = before ++ Called BrowserClose resp :: after
          /\ existsb Trace.isLaunched before = true
          /\ forallb (fun ev => negb (Trace.isCall ev)) after = true)
  /\ (forall st r st',
        Demo.main E st = (r, st') ->
        existsb Trace.isClose (Trace.added st st')
        = forallb (fun ev => Trace.isClose ev || negb (Trace.isRejected ev))
            (Trace.added st st')).
Proof.
  split.
  2: { intros st r st' Hrun. pose proof (demo_outcome E st) as H.
       rewrite Hrun in H. apply H. }
  intros args st code st'.
  unfold WikiSniffer.script, tryCatch. destruct args as [|input args].
  - cbn. intros [= <- <-]. rewrite added_app with (new := [ConsoleLog MUsage]);
      [discriminate|reflexivity].
  - destruct (main_frame E input args st)
      as (r & st1 & started & ran & closed & Hrun & Htr & _ & _ & _ & Hq & Hcl).
    rewrite Hrun.
    destruct (quiet_not_launched _ Hq) as (Hran & _ & _).
    destruct r as [[]|e].
    + intros [= <- <-]. rewrite (added_app _ _ _ Htr).
      destruct Hcl as [[Hl [resp ->]]|(Hl & _ & ->)].
      * intros _. split; [reflexivity|].
        exists (started ++ ran ++ [ConsoleLog MClosing]), resp, [].
        repeat split.
        -- now rewrite <- !app_assoc.
        -- now rewrite existsb_app, Hl.
      * rewrite !existsb_app, Hl, Hran. discriminate.
    + unfold consoleError, emit. intros [= <- <-]. cbn [trace].
      rewrite added_app
        with (new := started ++ ran ++ closed ++ [ConsoleError (MUncaught e)])
        by (rewrite Htr; now rewrite <- !app_assoc).
      destruct Hcl as [[Hl [resp ->]]|(Hl & _ & ->)].
      * intros _. split; [reflexivity|].
        exists (started ++ ran ++ [ConsoleLog MClosing]), resp,
          [ConsoleError (MUncaught e)].
        repeat split.
        -- now rewrite <- !app_assoc.
        -- now rewrite existsb_app, Hl.
      * rewrite !existsb_app, Hl, Hran. discriminate.
Qed.

(** A run whose only term fails: the browser is closed all the same. *)
Lemma launched_browser_is_closed_witness :
  exists before resp after,
    Trace.added Sample.empty
      (snd (WikiSniffer.script Sample.timeout [JS.lit "Zzqx__nonexistent"]
              Sample.empty))
    = before ++ Called BrowserClose resp :: after
    /\ existsb Trace.isLaunched before = true
    /\ forallb (fun ev => negb (Trace.isCall ev)) after = true.
Proof.
  destruct (launched_browser_is_closed Sample.timeout) as [Hmain _].
  apply (Hmain [JS.lit "Zzqx__nonexistent"] Sample.empty 0).
  - vm_compute. reflexivity.
  - vm_compute. reflexivity.
Defined.

(** C2 as stated fails on the demo script: without network the
    navigation is rejected, the script ends with an unhandled rejection
    (exit code 1), and the browser it launched is never closed. *)
Lemma demo_leaks_browser :
  let '(code, st') := Demo.script Sample.offline Sample.empty in
  code = 1
  /\ existsb Trace.isLaunched (Trace.added Sample.empty st') = true
  /\ existsb Trace.isClose (Trace.added Sample.empty st') = false.
Proof. vm_compute. auto. Qed.

(** X20. When no regular file is in the way, an [initialize] that
    completes leaves a directory at the output path. *)
Lemma initialize_ensures_directory E st st' :
  (forall content, fs st !! WikiSniffer.OUT_DIR E <> Some (File content)) ->
  WikiSniffer.initialize E st = (Normal tt, st') ->
  fs st' !! WikiSniffer.OUT_DIR E = Some Dir.
Proof.
  intros Hnofile Hrun.
  destruct (initialize_frame E st)
    as (r & st1 & new & Hrun' & _ & _ & _ & _ & _ & Hpost).
  rewrite Hrun in Hrun'. injection Hrun' as <- <-.
  destruct Hpost as (_ & _ & Hnew & Hold).
  destruct (fs st !! WikiSniffer.OUT_DIR E) as [[|content]|] eqn:Hfs.
  - rewrite Hold by eauto. exact Hfs.
  - now destruct (Hnofile content).
  - now apply Hnew.
Qed.

(** X19. In a run, the directory step belongs to [initialize]: at most
    one [mkdir], issued only when nothing is at the output path, and
    before any call that drives the page. *)
Lemma directory_step_once E input args st :
  exists r st' started rest,
    WikiSniffer.main E (input :: args) st = (r, st')
    /\ Trace.added st st' = started ++ rest
    /\ forallb (fun ev => negb (Trace.isCapture ev)) started = true
    /\ existsb Trace.isMkdir rest = false
    /\ (length (List.filter Trace.isMkdir started) <= 1)%nat
    /\ (existsb Trace.isMkdir started = true ->
        fs st !! WikiSniffer.OUT_DIR E = None).
Proof.
  destruct (main_frame E input args st)
    as (r & st' & started & ran & closed & Hrun & Htr & Hs & Hone & Habsent
        & Hq & Hcl).
  exists r, st', started, (ran ++ closed).
  split; [exact Hrun|]. split; [now apply added_app|].
  split.
  { rewrite forallb_forall in *. intros ev Hev.
    specialize (Hs ev Hev). now apply andb_true_iff in Hs. }
  split; [|auto].
  rewrite existsb_app. destruct (quiet_not_launched _ Hq) as (_ & _ & ->).
  destruct Hcl as [[_ [resp ->]]|(_ & _ & ->)]; reflexivity.
Qed.

(** C7. The code misses a case: when [snapshots] is a regular file in
    the working directory, [access] resolves, no [mkdir] is issued,
    [initialize] completes, and there is no output directory. *)
Theorem initialize_keeps_shadowing_file :
  let '(r, st') := WikiSniffer.initialize Sample.calm Sample.shadowed in
  r = Normal tt
  /\ fs Sample.shadowed !! WikiSniffer.OUT_DIR Sample.calm = Some (File [])
  /\ fs st' !! WikiSniffer.OUT_DIR Sample.calm = Some (File [])
  /\ existsb Trace.isMkdir (Trace.added Sample.shadowed st') = false.
Proof. vm_compute. auto. Qed.

(** C9. Sanitizing is not injective: terms that differ in letter case
    only, or in which character outside [A-Za-z0-9] they hold, get the
    same name. Such terms captured on the same day get the same path, and
    of two successful captures in a row the second overwrites the file of
    the first. *)
Theorem sanitized_names_collide :
  (JS.lit "Boxing" <> JS.lit "boxing"
   /\ forall E, WikiSniffer.sanitizedTerm E (JS.lit "Boxing")
                = WikiSniffer.sanitizedTerm E (JS.lit "boxing"))
  /\ (JS.lit "a b" <> JS.lit "a-b"
      /\ forall E, WikiSniffer.sanitizedTerm E (JS.lit "a b")
                   = WikiSniffer.sanitizedTerm E (JS.lit "a-b"))
  /\ (forall E s t d d',
        WikiSniffer.sanitizedTerm E s = WikiSniffer.sanitizedTerm E t ->
        WikiSniffer.timestamp d = WikiSniffer.timestamp d' ->
        WikiSniffer.filepath E s d = WikiSniffer.filepath E t d')
  /\ (forall E s t st p st1 q st2,
        WikiSniffer.sanitizedTerm E s = WikiSniffer.sanitizedTerm E t ->
        (forall h h', WikiSniffer.timestamp (clock E h)
                      = WikiSniffer.timestamp (clock E h')) ->
        WikiSniffer.searchAndCapture E s st = (Normal (Some p), st1) ->
        WikiSniffer.searchAndCapture E t st1 = (Normal (Some q), st2) ->
        q = p
        /\ exists img1 img2,
             fs st1 = <[p := File img1]> (fs st)
             /\ fs st2 = <[p := File img2]> (fs st)
             /\ fs st2 !! p = Some (File img2)).
Proof.
  assert (Hpath : forall E s t d d',
            WikiSniffer.sanitizedTerm E s = WikiSniffer.sanitizedTerm E t ->
            WikiSniffer.timestamp d = WikiSniffer.timestamp d' ->
            WikiSniffer.filepath E s d = WikiSniffer.filepath E t d').
  { intros E s t d d' Hs Hd.
    unfold WikiSniffer.filepath, WikiSniffer.filename. now rewrite Hs, Hd. }
  split; [split; [discriminate|]|].
  { intros E. now rewrite !sanitizedTerm_pointwise. }
  split; [split; [discriminate|]|].
  { intros E. now rewrite !sanitizedTerm_pointwise. }
  split; [exact Hpath|].
  intros E s t st p st1 q st2 Hs Hday H1 H2.
  destruct (capture_success _ _ _ _ _ H1) as (d1 & i1 & Hp & Hfs1 & h1 & ->).
  destruct (capture_success _ _ _ _ _ H2) as (d2 & i2 & Hq & Hfs2 & h2 & ->).
  assert (q = p) as -> by (subst; symmetry; now apply Hpath).
  split; [reflexivity|].
  exists i1, i2. split; [exact Hfs1|].
  rewrite Hfs2, Hfs1. rewrite insert_insert_eq.
  split; [reflexivity|apply lookup_insert_eq].
Qed.

(** "Boxing", then "boxing", on the same day. *)
Lemma sanitized_names_collide_witness :
  let p := WikiSniffer.filepath Sample.calm (JS.lit "Boxing") Sample.today in
  let st1 := snd (WikiSniffer.searchAndCapture Sample.calm (JS.lit "Boxing")
                    Sample.started) in
  let st2 := snd (WikiSniffer.searchAndCapture Sample.calm (JS.lit "boxing")
                    st1) in
  WikiSniffer.filepath Sample.calm (JS.lit "boxing") Sample.today = p
  /\ exists img1 img2,
       fs st1 = <[p := File img1]> (fs Sample.started)
       /\ fs st2 = <[p := File img2]> (fs Sample.started)
       /\ fs st2 !! p = Some (File img2).
Proof.
  cbv zeta.
  destruct sanitized_names_collide as (_ & _ & _ & H).
  apply (H Sample.calm (JS.lit "Boxing") (JS.lit "boxing") Sample.started).
  - vm_compute. reflexivity.
  - reflexivity.
  - vm_compute. reflexivity.
  - vm_compute. reflexivity.
Defined.

(** C10. The path of the error screenshot is the output directory,
    [error_], the sanitized term and [.png]: no date is in it. It is the
    same in every run from the same working directory, on any day and
    for every term with the same sanitized name, so failed attempts, one
    after the other, only ever write that one file. *)
Theorem error_screenshot_is_undated :
  (forall E t,
     WikiSniffer.errorFilepath E t
     = WikiSniffer.OUT_DIR E ++ Path.slash
       :: JS.lit "error_" ++ map Spec.sanitizeUnit t ++ JS.lit ".png")
  /\ (forall E1 E2 t1 t2,
        cwd E1 = cwd E2 ->
        map Spec.sanitizeUnit t1 = map Spec.sanitizeUnit t2 ->
        WikiSniffer.errorFilepath E1 t1 = WikiSniffer.errorFilepath E2 t2)
  /\ (forall E1 E2 t1 t2 st st1 st2,
        cwd E1 = cwd E2 ->
        map Spec.sanitizeUnit t1 = map Spec.sanitizeUnit t2 ->
        WikiSniffer.searchAndCapture E1 t1 st = (Normal None, st1) ->
        WikiSniffer.searchAndCapture E2 t2 st1 = (Normal None, st2) ->
        (forall p, p <> WikiSniffer.errorFilepath E1 t1 ->
                   fs st2 !! p = fs st !! p)
        /\ (fs st2 = fs st
            \/ exists img,
                 fs st2 = <[WikiSniffer.errorFilepath E1 t1 := File img]> (fs st))).
Proof.
  assert (Hform : forall E t,
            WikiSniffer.errorFilepath E t
            = WikiSniffer.OUT_DIR E ++ Path.slash
              :: JS.lit "error_" ++ map Spec.sanitizeUnit t ++ JS.lit ".png").
  { intros E t. rewrite errorFilepath_in_OUT_DIR.
    unfold WikiSniffer.errorFilename. now rewrite sanitizedTerm_pointwise. }
  assert (Hsame : forall E1 E2 t1 t2,
            cwd E1 = cwd E2 ->
            map Spec.sanitizeUnit t1 = map Spec.sanitizeUnit t2 ->
            WikiSniffer.errorFilepath E1 t1 = WikiSniffer.errorFilepath E2 t2).
  { intros E1 E2 t1 t2 Hcwd Hs.
    now rewrite !Hform, (OUT_DIR_cwd _ _ Hcwd), Hs. }
  split; [exact Hform|]. split; [exact Hsame|].
  intros E1 E2 t1 t2 st st1 st2 Hcwd Hs H1 H2.
  apply capture_failure in H1, H2.
  rewrite <- (Hsame E1 E2 t1 t2 Hcwd Hs) in H2.
  assert (Hfs : fs st2 = fs st
                \/ exists img,
                     fs st2 = <[WikiSniffer.errorFilepath E1 t1 := File img]> (fs st)).
  { destruct H1 as [H1|[i1 H1]], H2 as [H2|[i2 H2]]; rewrite H2, H1; eauto.
    right. exists i2. apply insert_insert_eq. }
  split; [|exact Hfs].
  intros p Hp. destruct Hfs as [->|[img ->]]; [reflexivity|].
  now apply lookup_insert_ne.
Qed.

(** Two failed attempts, in two worlds, for two terms of one name. *)
Lemma error_screenshot_is_undated_witness :
  let st1 := snd (WikiSniffer.searchAndCapture Sample.timeout
                    (JS.lit "Zzqx__nonexistent") Sample.started) in
  let st2 := snd (WikiSniffer.searchAndCapture Sample.offline
                    (JS.lit "zzqx  nonexistent") st1) in
  WikiSniffer.errorFilepath Sample.timeout (JS.lit "Zzqx__nonexistent")
  = WikiSniffer.errorFilepath Sample.offline (JS.lit "zzqx  nonexistent")
  /\ (fs st2 = fs Sample.started
      \/ exists img,
           fs st2 = <[WikiSniffer.errorFilepath Sample.timeout
                        (JS.lit "Zzqx__nonexistent") := File img]>
                      (fs Sample.started)).
Proof.
  cbv zeta.
  destruct error_screenshot_is_undated as (_ & Hsame & Htwice).
  split.
  - apply Hsame; reflexivity.
  - apply (Htwice Sample.timeout Sample.offline (JS.lit "Zzqx__nonexistent")
             (JS.lit "zzqx  nonexistent") Sample.started
             (snd (WikiSniffer.searchAndCapture Sample.timeout
                     (JS.lit "Zzqx__nonexistent") Sample.started))).
    + reflexivity.
    + reflexivity.
    + vm_compute. reflexivity.
    + vm_compute. reflexivity.
Defined.

End Claims.

(* ===================================================================== *)
(** ** Terms and file names, beyond the specification                     *)
(* ===================================================================== *)

Section TermsAndNames.

Lemma in_trimmed c line : In c (JS.trim line) -> In c line.
Proof.
  destruct (trim_spec line) as (before & after & Hline & _).
  intros H. rewrite Hline. apply in_or_app. right. apply in_or_app. now left.
Qed.

(** X1. Every term read from a file is clean: it is not empty, holds no
    line feed, and neither starts nor ends with white space. *)
Theorem parsed_terms_are_clean content :
  Forall Story.clean (WikiSniffer.parseTerms content).
Proof.
  unfold WikiSniffer.parseTerms. rewrite List.Forall_forall. intros t Ht.
  apply filter_In in Ht as [Ht Hlen].
  apply in_map_iff in Ht as (line & <- & Hline).
  pose proof (split_pieces 10 content) as Hpieces.
  rewrite List.Forall_forall in Hpieces. specialize (Hpieces line Hline).
  destruct (trim_spec line) as (before & after & _ & _ & _ & Hhead & Hlast).
  repeat split.
  - intros H. now rewrite H in Hlen.
  - intros H. now apply Hpieces, in_trimmed.
  - exact Hhead.
  - exact Hlast.
Qed.

Lemma trim_clean t : Story.clean t -> JS.trim t = t.
Proof.
  intros (Hne & _ & Hhead & Hlast). unfold JS.trim, JS.trimEnd.
  destruct t as [|c r]; [contradiction|].
  assert (Hs : JS.trimStart (c :: r) = c :: r).
  { simpl. now rewrite (Hhead c r eq_refl). }
  rewrite Hs.
  destruct (exists_last Hne) as (r' & c' & Heq). rewrite Heq.
  rewrite rev_unit. simpl. rewrite (Hlast c' r' Heq).
  simpl. now rewrite rev_involutive.
Qed.

Lemma cleanb_clean t : Story.cleanb t = true -> Story.clean t.
Proof.
  unfold Story.cleanb.
  destruct t as [|c r]; [discriminate|].
  destruct (rev (c :: r)) as [|c' r'] eqn:Hrev; [discriminate|].
  intros H. apply andb_true_iff in H as [H Hnl].
  apply andb_true_iff in H as [Hc Hc'].
  apply negb_true_iff in Hc, Hc'.
  repeat split.
  - discriminate.
  - intros Hin. rewrite forallb_forall in Hnl. specialize (Hnl 10 Hin).
    discriminate.
  - now intros d s [= <- _].
  - intros d s Heq. rewrite Heq, rev_unit in Hrev. now injection Hrev as -> _.
Qed.

(** X2. Writing clean terms one per line and reading them back gives the
    same terms, in the same order. *)
Theorem parseTerms_join terms :
  Forall Story.clean terms ->
  WikiSniffer.parseTerms (JS.join [10] terms) = terms.
Proof.
  intros Hclean. destruct terms as [|t ts]; [reflexivity|].
  unfold WikiSniffer.parseTerms. rewrite split_join.
  - induction Hclean as [|u us Hu _ IH]; [reflexivity|].
    simpl. rewrite (trim_clean _ Hu).
    destruct u as [|c r]; [now destruct Hu|]. simpl. now rewrite IH.
  - discriminate.
  - eapply List.Forall_impl; [|exact Hclean]. intros u Hu. apply Hu.
Qed.

(** Three terms, one of them with inner white space. *)
Lemma parseTerms_join_witness :
  WikiSniffer.parseTerms
    (JS.join [10] [JS.lit "Boxing"; JS.lit "black holes"; JS.lit "Boxing"])
  = [JS.lit "Boxing"; JS.lit "black holes"; JS.lit "Boxing"].
Proof.
  apply parseTerms_join.
  repeat constructor; apply cleanb_clean; reflexivity.
Defined.

Lemma sanitizeUnit_fixed c :
  Spec.sanitizeUnit c = c <-> Spec.plain c = true.
Proof.
  split.
  - intros <-. apply sanitizeUnit_plain.
  - unfold_units. compare_units.
Qed.

(** X3. Sanitizing keeps the number of code units, changes nothing when
    applied twice, and leaves a term as it is exactly when the term
    holds [a-z0-9_] only. *)
Theorem sanitizedTerm_idempotent E t :
  length (WikiSniffer.sanitizedTerm E t) = length t
  /\ WikiSniffer.sanitizedTerm E (WikiSniffer.sanitizedTerm E t)
     = WikiSniffer.sanitizedTerm E t
  /\ (WikiSniffer.sanitizedTerm E t = t
      <-> Forall (fun c => Spec.plain c = true) t).
Proof.
  split; [apply sanitizedTerm_length|].
  rewrite !sanitizedTerm_pointwise. split.
  - rewrite map_map. apply map_ext. intros c.
    apply sanitizeUnit_fixed, sanitizeUnit_plain.
  - induction t as [|c t IH]; simpl.
    + split; [constructor|reflexivity].
    + split.
      * intros [= Hc Ht]. constructor; [now apply sanitizeUnit_fixed|now apply IH].
      * intros H. inversion H as [|? ? Hc Ht]; subst.
        f_equal; [now apply sanitizeUnit_fixed|now apply IH].
Qed.

(** X4. The file name depends on the clock through the calendar day
    (UTC) only, and for a year of four digits the date stamp has ten
    code units. *)
Theorem filename_depends_on_day E t d d' :
  JSDate.year d = JSDate.year d' ->
  JSDate.month d = JSDate.month d' ->
  JSDate.day d = JSDate.day d' ->
  WikiSniffer.filename E t d = WikiSniffer.filename E t d'
  /\ WikiSniffer.filepath E t d = WikiSniffer.filepath E t d'
  /\ ((0 <= JSDate.year d <= 9999)%Z ->
      length (WikiSniffer.timestamp d) = 10%nat).
Proof.
  intros Hy Hm Hd.
  assert (Hts : WikiSniffer.timestamp d = WikiSniffer.timestamp d').
  { rewrite !timestamp_isoDay. unfold JSDate.isoDay. now rewrite Hy, Hm, Hd. }
  unfold WikiSniffer.filepath, WikiSniffer.filename. rewrite Hts.
  repeat split. intros [Hlo Hhi].
  rewrite <- Hts, timestamp_isoDay. unfold JSDate.isoDay, JSDate.isoYear.
  apply Z.leb_le in Hlo, Hhi. rewrite Hlo, Hhi. reflexivity.
Qed.

(** The morning and the last millisecond of one day. *)
Lemma filename_depends_on_day_witness :
  WikiSniffer.filename Sample.calm (JS.lit "Boxing") Sample.today
  = WikiSniffer.filename Sample.calm (JS.lit "Boxing")
      {| JSDate.year := 2026; JSDate.month := 11; JSDate.day := 3;
         JSDate.hours := 23; JSDate.minutes := 59; JSDate.seconds := 59;
         JSDate.millis := 999 |}
  /\ length (WikiSniffer.timestamp Sample.today) = 10%nat.
Proof.
  destruct (filename_depends_on_day Sample.calm (JS.lit "Boxing") Sample.today
              {| JSDate.year := 2026; JSDate.month := 11; JSDate.day := 3;
                 JSDate.hours := 23; JSDate.minutes := 59; JSDate.seconds := 59;
                 JSDate.millis := 999 |} eq_refl eq_refl eq_refl)
    as (Hname & _ & Hlen).
  split; [exact Hname|]. apply Hlen. simpl. lia.
Defined.

(** X5. On one day, two terms get the same screenshot path exactly when
    their sanitized names are equal; two terms get the same error
    screenshot path exactly when their sanitized names are equal. *)
Theorem paths_collide_iff_names E s t d :
  (WikiSniffer.filepath E s d = WikiSniffer.filepath E t d
   <-> WikiSniffer.sanitizedTerm E s = WikiSniffer.sanitizedTerm E t)
  /\ (WikiSniffer.errorFilepath E s = WikiSniffer.errorFilepath E t
      <-> WikiSniffer.sanitizedTerm E s = WikiSniffer.sanitizedTerm E t).
Proof.
  rewrite !filepath_in_OUT_DIR, !errorFilepath_in_OUT_DIR.
  unfold WikiSniffer.filename, WikiSniffer.errorFilename. split; split.
  - intros H. apply app_inv_head in H. injection H as H.
    now apply app_inv_tail in H.
  - now intros ->.
  - intros H. apply app_inv_head in H. injection H as H.
    now apply app_inv_tail in H.
  - now intros ->.
Qed.

(** X6. The error screenshot of a term never lands on the screenshot of
    a successful capture, whatever the terms and the day: the date stamp
    holds a hyphen and an error name holds none. *)
Theorem error_shot_spares_captures E s t d :
  WikiSniffer.errorFilepath E s <> WikiSniffer.filepath E t d.
Proof.
  rewrite filepath_in_OUT_DIR, errorFilepath_in_OUT_DIR.
  remember (JS.lit "error_" ++ WikiSniffer.sanitizedTerm E s) as stemE eqn:HE.
  remember (WikiSniffer.sanitizedTerm E t ++ [JS.underscore]
            ++ WikiSniffer.timestamp d) as stemS eqn:HS.
  assert (He : WikiSniffer.errorFilename E s = stemE ++ JS.lit ".png")
    by (subst; unfold WikiSniffer.errorFilename; now rewrite app_assoc).
  assert (Hf : WikiSniffer.filename E t d = stemS ++ JS.lit ".png")
    by (subst; unfold WikiSniffer.filename; now rewrite <- !app_assoc).
  rewrite He, Hf. intros H.
  apply app_inv_head in H. injection H as H. apply app_inv_tail in H.
  assert (Hin : In 45 (JS.lit "error_" ++ WikiSniffer.sanitizedTerm E s)).
  { rewrite <- HE, H, HS. apply in_or_app. right. apply in_or_app. right.
    apply timestamp_hyphen. }
  apply in_app_or in Hin as [Hin|Hin].
  - vm_compute in Hin. repeat (destruct Hin as [Hin|Hin]; [discriminate|]).
    exact Hin.
  - pose proof (sanitizedTerm_plain E s) as Hp.
    rewrite List.Forall_forall in Hp. specialize (Hp 45 Hin). discriminate.
Qed.

End TermsAndNames.

(* ===================================================================== *)
(** ** Edges of the capture, of the batch and of the demo script          *)
(* ===================================================================== *)

Section Edges.

(** X7. On a sniffer that was never initialized, a capture drives no
    page and touches no file: it logs the error of the first step, fails
    to take the error screenshot too, and returns [null]. *)
Theorem capture_without_page E t st :
  page (this st) = None ->
  WikiSniffer.searchAndCapture E t st
  = (Normal None,
     {| this := this st; fs := fs st;
        trace := trace st
                 ++ [ConsoleLog (MSearching t);
                     ConsoleError (MErrorProcessing t (message TypeError));
                     ConsoleLog MNoErrorShot] |}).
Proof.
  destruct st as [[b c p] files tr]. cbn [this page fs trace].
  intros ->. run_js. tidy_trace. reflexivity.
Qed.

(** A sniffer straight from the constructor. *)
Lemma capture_without_page_witness :
  fst (WikiSniffer.searchAndCapture Sample.calm (JS.lit "Boxing") Sample.empty)
  = Normal None.
Proof.
  now rewrite (capture_without_page Sample.calm (JS.lit "Boxing") Sample.empty).
Defined.

(** X8. When the path given to the batch is not a readable file
    (nothing there, or a directory), the batch searches nothing and
    changes nothing on disk: it logs the read error and returns. *)
Theorem batch_of_unreadable_file E filePath st :
  (forall content, fs st !! filePath <> Some (File content)) ->
  exists e,
    WikiSniffer.processTermsFromFile E filePath st
    = (Normal tt,
       {| this := this st; fs := fs st;
          trace := trace st
                   ++ [ConsoleLog (MReading filePath);
                       Called (ReadFile filePath) (Rejected e);
                       ConsoleError (MErrorReading (message e))] |})
    /\ (e = ENOENT \/ e = EISDIR).
Proof.
  destruct st as [s files tr]. cbn [this fs trace]. intros Hfile.
  unfold WikiSniffer.processTermsFromFile. run_js.
  destruct (files !! filePath) as [[|content]|].
  - exists EISDIR. run_js. tidy_trace. auto.
  - now destruct (Hfile content).
  - exists ENOENT. run_js. tidy_trace. auto.
Qed.

(** A directory given as terms file. *)
Lemma batch_of_unreadable_file_witness :
  Trace.searched
    (trace (snd (WikiSniffer.processTermsFromFile Sample.calm (JS.lit "notes")
                   MoreSamples.withDirectory)))
  = [].
Proof.
  destruct (batch_of_unreadable_file Sample.calm (JS.lit "notes")
              MoreSamples.withDirectory) as (e & Hrun & _).
  - intros content. vm_compute. discriminate.
  - rewrite Hrun. reflexivity.
Defined.

Lemma split_blank sep content :
  Spec.blank content = true ->
  Forall (fun line => Spec.blank line = true) (JS.split sep content).
Proof.
  unfold Spec.blank. induction content as [|c s IH]; simpl.
  - repeat constructor.
  - intros H. apply andb_true_iff in H as [Hc Hs]. specialize (IH Hs).
    destruct (c =? sep); [now constructor|].
    destruct (JS.split sep s) as [|p ps]; simpl.
    + repeat constructor. simpl. now rewrite Hc.
    + inversion IH; subst. constructor; [|assumption].
      simpl. now rewrite Hc.
Qed.

Lemma parseTerms_blank content :
  Spec.blank content = true -> WikiSniffer.parseTerms content = [].
Proof.
  intros H. rewrite parseTerms_spec. unfold Spec.nonblankTrimmedLines.
  pose proof (split_blank 10 content H) as Hall.
  induction Hall as [|line lines Hline _ IH]; simpl; [reflexivity|].
  now rewrite Hline.
Qed.

(** X9. A file of white space only (empty, or blank lines) holds no
    term: the batch announces 0 terms, searches nothing, pauses never,
    and prints a summary of 0/0 without the two lists. *)
Theorem batch_of_blank_file E filePath content st :
  fs st !! filePath = Some (File content) ->
  Spec.blank content = true ->
  WikiSniffer.processTermsFromFile E filePath st
  = (Normal tt,
     {| this := this st; fs := fs st;
        trace := trace st
                 ++ [ConsoleLog (MReading filePath);
                     Called (ReadFile filePath) (Resolved content);
                     ConsoleLog (MFound 0); ConsoleLog MSummary;
                     ConsoleLog (MRule 50); ConsoleLog (MSuccessful 0 0);
                     ConsoleLog (MFailed 0 0); ConsoleLog MAllDone] |}).
Proof.
  destruct st as [s files tr]. cbn [this fs trace]. intros Hfile Hblank.
  unfold WikiSniffer.processTermsFromFile. run_js. rewrite Hfile. run_js.
  rewrite (parseTerms_blank _ Hblank).
  cbn [length WikiSniffer.processLoop]. run_js.
  unfold WikiSniffer.printSummary. cbn. tidy_trace. reflexivity.
Qed.

(** Three lines of spaces, tabs and carriage returns. *)
Lemma batch_of_blank_file_witness :
  Trace.searched
    (trace (snd (WikiSniffer.processTermsFromFile Sample.calm
                   (JS.lit "blank.txt") MoreSamples.withBlanks)))
  = [].
Proof.
  rewrite (batch_of_blank_file Sample.calm (JS.lit "blank.txt")
             ([32; 10; 9; 13; 10] ++ [10]) MoreSamples.withBlanks);
    reflexivity.
Defined.

Lemma info_png_isName : Path.isName (JS.lit "info.png").
Proof.
  eapply name_intro; [reflexivity|discriminate|].
  vm_compute. intros H. repeat (destruct H as [H|H]; [discriminate|]). exact H.
Qed.

(** X10. The demo script exits with code 0 exactly when no call was
    rejected, and with code 1 otherwise. The only file it ever writes is
    [info.png] in the output directory, always at the same path, and it
    has written it whenever it exits with code 0. *)
Theorem demo_exit_and_file E st :
  let '(code, st') := Demo.script E st in
  let shot := Demo.OUT_DIR E ++ Path.slash :: JS.lit "info.png" in
  (code =? 0) = negb (existsb Trace.isRejected (Trace.added st st'))
  /\ (fs st' = fs st
      \/ exists img, fs st' = <[shot := File img]> (fs st))
  /\ (if code =? 0
      then exists img, fs st' = <[shot := File img]> (fs st)
      else code = 1).
Proof.
  assert (Hshot : Path.join (Demo.OUT_DIR E) (JS.lit "info.png")
                  = Demo.OUT_DIR E ++ Path.slash :: JS.lit "info.png").
  { apply join_settled; [apply (OUT_DIR_settled E)|apply info_png_isName]. }
  destruct st as [s files tr]. unfold Demo.script, Demo.main. run_js.
  rewrite Hshot.
  repeat next_call; tidy_trace; rewrite added_concrete; cbn [fs];
    (split; [reflexivity|]); (split; [eauto|]); cbn; eauto.
Qed.

End Edges.

(* ===================================================================== *)
(** ** The story of a batch                                               *)
(* ===================================================================== *)

Section StoryFacts.

Lemma story_app a b : Story.story (a ++ b) = Story.story a ++ Story.story b.
Proof. apply omap_app. Qed.

Lemma summaryLines_app a b :
  Story.summaryLines (a ++ b) = Story.summaryLines a ++ Story.summaryLines b.
Proof. apply omap_app. Qed.

(** One capture, as a reader of the console sees it. *)
Lemma searchAndCapture_story E t st :
  exists result st' new o,
    WikiSniffer.searchAndCapture E t st = (Normal result, st')
    /\ this st' = this st
    /\ trace st' = trace st ++ new
    /\ Story.story new = Story.one E (t, o)
    /\ Story.summaryLines new = []
    /\ result = option_map (WikiSniffer.filepath E t) o.
Proof.
  destruct st as [[b c [p|]] files tr]; run_js.
  - repeat next_call; tidy_trace;
      first [ do 3 eexists; eexists (Some _); repeat split; reflexivity
            | do 3 eexists; exists None; repeat split; reflexivity ].
  - tidy_trace. do 3 eexists. exists None. repeat split; reflexivity.
Qed.

Lemma truthy_filepath E t o :
  JS.truthy (option_map (WikiSniffer.filepath E t) o)
  = match o with Some _ => true | None => false end.
Proof.
  destruct o as [d|]; [|reflexivity]. simpl.
  pose proof (filepath_nonempty E t d).
  now destruct (WikiSniffer.filepath E t d).
Qed.

(** The loop, when it runs to its end: one capture per term, a pause
    between two terms, one entry of [results] per term. *)
Lemma processLoop_story E n rest : forall i results st results' st',
  (i + length rest = n)%nat ->
  WikiSniffer.processLoop E n i rest results st = (Normal results', st') ->
  exists os new,
    trace st' = trace st ++ new
    /\ map fst os = rest
    /\ Story.story new = Story.batchStory E os
    /\ Story.summaryLines new = []
    /\ results' = results ++ map (Story.outcomeOf E) os.
Proof.
  induction rest as [|t rest IH]; intros i results st results' st' Hn Hrun.
  - injection Hrun as <- <-. exists [], []. rewrite !app_nil_r. auto.
  - cbn [WikiSniffer.processLoop] in Hrun. rewrite bind_log in Hrun.
    cbv beta in Hrun. unfold bind at 1 in Hrun.
    match type of Hrun with context [WikiSniffer.searchAndCapture E t ?s] =>
      destruct (searchAndCapture_story E t s)
        as (result & st2 & new1 & o & Hcap & Hthis & Htr & Hstory & Hsum & ->)
    end.
    rewrite Hcap in Hrun. cbn [this trace] in Hthis, Htr.
    rewrite truthy_filepath in Hrun.
    change {| WikiSniffer.term := t;
              WikiSniffer.success := match o with Some _ => true | None => false end;
              WikiSniffer.resultPath := option_map (WikiSniffer.filepath E t) o |}
      with (Story.outcomeOf E (t, o)) in Hrun.
    assert (Hhead : forall evs,
              Story.story (ConsoleLog (MProcessing (i + 1) n t) :: new1 ++ evs)
              = Story.one E (t, o) ++ Story.story evs
              /\ Story.summaryLines
                   (ConsoleLog (MProcessing (i + 1) n t) :: new1 ++ evs)
                 = Story.summaryLines evs).
    { intros evs. split.
      - change (Story.story (new1 ++ evs) = Story.one E (t, o) ++ Story.story evs).
        now rewrite story_app, Hstory.
      - change (Story.summaryLines (new1 ++ evs) = Story.summaryLines evs).
        now rewrite summaryLines_app, Hsum. }
    destruct rest as [|t' rest].
    + assert (Hlast : (Z.of_nat i <? Z.of_nat n - 1)%Z = false)
        by (apply Z.ltb_ge; simpl in Hn; lia).
      rewrite Hlast, bind_ret in Hrun. cbv beta in Hrun.
      injection Hrun as <- <-.
      exists [(t, o)], (ConsoleLog (MProcessing (i + 1) n t) :: new1 ++ []).
      destruct (Hhead []) as [Hs1 Hs2]. rewrite Hs1, Hs2.
      split; [rewrite Htr; now rewrite app_nil_r, <- app_assoc|].
      repeat split; simpl; now rewrite ?app_nil_r.
    + assert (Hmore : (Z.of_nat i <? Z.of_nat n - 1)%Z = true)
        by (apply Z.ltb_lt; simpl in Hn; lia).
      rewrite Hmore in Hrun.
      rewrite bind_assoc, bind_log in Hrun. cbv beta in Hrun.
      rewrite bind_assoc in Hrun. unfold bind at 1 in Hrun.
      unfold on at 1 in Hrun. cbn [this] in Hrun.
      destruct (page (this st2)) as [h|]; [|discriminate].
      unfold call in Hrun. cbn [answer trace fs this effect] in Hrun.
      destruct (respond E _ _) as [v|e]; [|discriminate].
      rewrite bind_ret in Hrun. cbv beta in Hrun.
      apply IH in Hrun; [|simpl in *; lia].
      destruct Hrun as (os & new2 & Htr2 & Hos & Hstory2 & Hsum2 & ->).
      cbn [trace] in Htr2.
      exists ((t, o) :: os),
        (ConsoleLog (MProcessing (i + 1) n t) :: new1
         ++ [ConsoleLog MWaiting; Called (WaitForTimeout 2000) (Resolved v)]
         ++ new2).
      destruct (Hhead ([ConsoleLog MWaiting;
                        Called (WaitForTimeout 2000) (Resolved v)] ++ new2))
        as [Hs1 Hs2].
      rewrite Hs1, Hs2.
      split; [rewrite Htr2, Htr; now rewrite <- !app_assoc|].
      split; [simpl; now rewrite Hos|].
      split.
      { change (Story.story (_ ++ new2)) with (Story.Paused :: Story.story new2).
        rewrite Hstory2. destruct os as [|o' os]; [discriminate|]. reflexivity. }
      split; [exact Hsum2|].
      simpl. now rewrite <- app_assoc.
Qed.


Lemma summaryLines_log m evs :
  Story.summaryLines (ConsoleLog m :: evs)
  = (if Trace.isSummary (ConsoleLog m) then [m] else [])
    ++ Story.summaryLines evs.
Proof.
  destruct m; reflexivity.
Qed.

Lemma summaryLines_bullets {A} (f : A -> jsstring) xs :
  Story.summaryLines (map (fun x => ConsoleLog (MBullet (f x))) xs)
  = map (fun x => MBullet (f x)) xs.
Proof.
  induction xs as [|x xs IH]; [reflexivity|].
  simpl map. rewrite summaryLines_log, IH. reflexivity.
Qed.

Lemma summary_has_no_story evs :
  forallb Trace.isSummary evs = true -> Story.story evs = [].
Proof.
  induction evs as [|ev evs IH]; simpl; [auto|].
  intros H. apply andb_true_iff in H as [Hev Hevs].
  unfold Story.story in *. simpl omap. rewrite (IH Hevs).
  destruct ev as [? ?|[]|?]; try discriminate; reflexivity.
Qed.

(** The lines the summary prints, read off [results]. *)
Lemma printSummary_lines results st :
  let ok := List.filter WikiSniffer.success results in
  let ko := List.filter (fun r => negb (WikiSniffer.success r)) results in
  exists new,
    WikiSniffer.printSummary results st
    = (Normal tt,
       {| this := this st; fs := fs st; trace := trace st ++ new |})
    /\ Story.story new = []
    /\ Story.summaryLines new
       = [MSummary; MRule 50;
          MSuccessful (length ok) (length results);
          MFailed (length results - length ok) (length results)]
         ++ (if (0 <? length ok)%nat
             then MSavedHeader
                  :: map (fun r => MBullet (Path.basename
                                              (default [] (WikiSniffer.resultPath r))))
                       ok
             else [])
         ++ (if (0 <? length results - length ok)%nat
             then MFailedHeader
                  :: map (fun r => MBullet (WikiSniffer.term r)) ko
             else [])
         ++ [MAllDone].
Proof.
  cbv zeta.
  destruct (printSummary_frame results st) as (new0 & Hrun0 & Hsum0 & _).
  unfold WikiSniffer.printSummary in *.
  set (ok := List.filter WikiSniffer.success results) in *.
  set (ko := List.filter (fun r => negb (WikiSniffer.success r)) results) in *.
  destruct (0 <? length ok)%nat;
    destruct (0 <? length results - length ok)%nat;
    repeat (first [rewrite bind_assoc | rewrite bind_log
                  | rewrite bind_forEach_log | rewrite bind_ret];
            cbv beta);
    unfold consoleLog, emit; cbn [this fs trace];
    tidy_trace; eexists; (split; [reflexivity|]);
    (split;
     [ apply summary_has_no_story;
       repeat (cbn [forallb Trace.isSummary andb];
               first [rewrite forallb_app | rewrite bullets_summary]);
       reflexivity
     | repeat first [ rewrite summaryLines_log
                    | rewrite summaryLines_app
                    | rewrite summaryLines_bullets ];
       cbn [Trace.isSummary app]; rewrite <- ?app_assoc; cbn [app];
       reflexivity ]).
Qed.

Lemma endings_in_results E os :
  let results := map (Story.outcomeOf E) os in
  let ok := List.filter WikiSniffer.success results in
  let ko := List.filter (fun r => negb (WikiSniffer.success r)) results in
  length results = length os
  /\ map (fun r => Path.basename (default [] (WikiSniffer.resultPath r))) ok
     = Story.savedNames E os
  /\ map WikiSniffer.term ko = Story.failedTerms os
  /\ (length ok + length ko = length os)%nat.
Proof.
  cbv zeta. induction os as [|[t [d|]] os (IH1 & IH2 & IH3 & IH4)].
  - repeat split.
  - simpl. rewrite IH1, IH2, IH3. repeat split.
    + unfold Story.savedNames at 2. simpl. f_equal. apply basename_filepath.
    + lia.
  - simpl. rewrite IH1, IH2, IH3. repeat split. lia.
Qed.

(** The loop prints no line of the summary, however it ends. *)
Lemma processLoop_no_summary E n rest : forall i results st,
  exists r st' new,
    WikiSniffer.processLoop E n i rest results st = (r, st')
    /\ trace st' = trace st ++ new
    /\ Story.summaryLines new = [].
Proof.
  induction rest as [|t rest IH]; intros i results st.
  - exists (Normal results), st, []. now rewrite app_nil_r.
  - cbn [WikiSniffer.processLoop]. rewrite bind_log. cbv beta.
    unfold bind at 1.
    match goal with |- context [WikiSniffer.searchAndCapture E t ?s] =>
      destruct (searchAndCapture_story E t s)
        as (result & st2 & new1 & o & Hcap & Hthis & Htr & _ & Hsum & _)
    end.
    rewrite Hcap. cbn [this trace] in Hthis, Htr.
    set (results' := results ++ _).
    assert (Hhead : forall evs,
              Story.summaryLines
                (ConsoleLog (MProcessing (i + 1) n t) :: new1 ++ evs)
              = Story.summaryLines evs).
    { intros evs.
      change (Story.summaryLines (new1 ++ evs) = Story.summaryLines evs).
      now rewrite summaryLines_app, Hsum. }
    destruct (Z.of_nat i <? Z.of_nat n - 1)%Z.
    + rewrite bind_assoc, bind_log. cbv beta. rewrite bind_assoc.
      unfold bind at 1. unfold on at 1. cbn [this].
      destruct (page (this st2)) as [h|].
      * unfold call. cbn [answer trace fs this effect].
        destruct (respond E _ _) as [v|e].
        -- rewrite bind_ret. cbv beta.
           match goal with
           | |- context [WikiSniffer.processLoop E n (S i) rest results' ?s] =>
               destruct (IH (S i) results' s) as (r & st' & new2 & Hrun & Htr2 & Hs2)
           end.
           cbn [trace] in Htr2.
           exists r, st',
             (ConsoleLog (MProcessing (i + 1) n t) :: new1
              ++ [ConsoleLog MWaiting;
                  Called (WaitForTimeout 2000) (Resolved v)] ++ new2).
           split; [exact Hrun|].
           split; [rewrite Htr2, Htr; now rewrite <- !app_assoc|].
           rewrite Hhead. exact Hs2.
        -- eexists (Thrown e), _,
             (ConsoleLog (MProcessing (i + 1) n t) :: new1
              ++ [ConsoleLog MWaiting;
                  Called (WaitForTimeout 2000) (Rejected e)]).
           split; [reflexivity|]. cbn [trace].
           split; [rewrite Htr; now rewrite <- !app_assoc|].
           now rewrite Hhead.
      * eexists (Thrown TypeError), _,
          (ConsoleLog (MProcessing (i + 1) n t) :: new1 ++ [ConsoleLog MWaiting]).
        split; [reflexivity|]. cbn [trace].
        split; [rewrite Htr; now rewrite <- !app_assoc|].
        now rewrite Hhead.
    + rewrite bind_ret. cbv beta.
      destruct (IH (S i) results' st2) as (r & st' & new2 & Hrun & Htr2 & Hs2).
      exists r, st', (ConsoleLog (MProcessing (i + 1) n t) :: new1 ++ new2).
      split; [exact Hrun|].
      split; [rewrite Htr2, Htr; now rewrite <- !app_assoc|].
      rewrite Hhead. exact Hs2.
Qed.

(** A batch over a readable file: it was cut short by an error, or it
    told the whole story and summed it up. *)
Lemma batch_anatomy E filePath content st :
  fs st !! filePath = Some (File content) ->
  exists st' new,
    WikiSniffer.processTermsFromFile E filePath st = (Normal tt, st')
    /\ trace st' = trace st ++ new
    /\ ((exists msg before,
           new = before ++ [ConsoleError (MErrorReading msg)]
           /\ Story.summaryLines new = [])
        \/ exists os,
             map fst os = WikiSniffer.parseTerms content
             /\ Story.story new = Story.batchStory E os
             /\ Story.summaryLines new = Story.expectedSummary E os).
Proof.
  intros Hfile.
  unfold WikiSniffer.processTermsFromFile, tryCatch.
  rewrite bind_log. cbv beta. unfold bind at 1.
  unfold call. cbn [answer fs trace this effect]. rewrite Hfile.
  rewrite bind_log. cbv beta. unfold bind at 1.
  set (terms := WikiSniffer.parseTerms content).
  match goal with |- context [WikiSniffer.processLoop E _ 0 terms [] ?s] =>
    destruct (WikiSniffer.processLoop E (length terms) 0 terms [] s)
      as [[results|e] st1] eqn:Hloop;
    pose proof (processLoop_no_summary E (length terms) terms 0 [] s)
      as (r & st1' & new1' & Hrun & Htr & Hquiet)
  end.
  - apply processLoop_story in Hloop; [|reflexivity].
    destruct Hloop as (os & new1 & Htr1 & Hos & Hstory & Hsum & ->).
    cbn [trace app] in Htr1. cbn [app].
    destruct (printSummary_lines (map (Story.outcomeOf E) os) st1)
      as (new2 & Hps & Hstory2 & Hsum2).
    rewrite Hps. do 2 eexists. split; [reflexivity|]. cbn [trace].
    split.
    { rewrite Htr1.
      instantiate (1 := ConsoleLog (MReading filePath)
                        :: Called (ReadFile filePath) (Resolved content)
                        :: ConsoleLog (MFound (length terms)) :: new1 ++ new2).
      now rewrite <- !app_assoc. }
    right. exists os. split; [exact Hos|]. split.
    + change (Story.story (new1 ++ new2) = Story.batchStory E os).
      now rewrite story_app, Hstory, Hstory2, app_nil_r.
    + change (Story.summaryLines (new1 ++ new2) = Story.expectedSummary E os).
      rewrite summaryLines_app, Hsum, Hsum2. cbn [app].
      destruct (endings_in_results E os) as (Hn & Hok & Hko & Hadd).
      cbv zeta in Hn, Hok, Hko, Hadd.
      set (ok := List.filter WikiSniffer.success
                   (map (Story.outcomeOf E) os)) in *.
      set (ko := List.filter (fun r => negb (WikiSniffer.success r))
                   (map (Story.outcomeOf E) os)) in *.
      unfold Story.expectedSummary. cbv zeta.
      rewrite <- Hok, <- Hko, !length_map.
      unfold Story.Ending in *.
      replace (length os - length ok)%nat with (length ko) by lia.
      rewrite <- (map_map (fun r => Path.basename
                                      (default [] (WikiSniffer.resultPath r)))
                    MBullet ok).
      rewrite <- (map_map WikiSniffer.term MBullet ko).
      destruct ok, ko; reflexivity.
  - unfold consoleError, emit. cbn [this fs trace].
    rewrite Hloop in Hrun. injection Hrun as <- <-.
    cbn [trace] in Htr.
    do 2 eexists. split; [reflexivity|]. cbn [trace]. split.
    { rewrite Htr.
      instantiate (1 := ConsoleLog (MReading filePath)
                        :: Called (ReadFile filePath) (Resolved content)
                        :: ConsoleLog (MFound (length terms)) :: new1'
                        ++ [ConsoleError (MErrorReading (message e))]).
      now rewrite <- !app_assoc. }
    left. exists (message e).
    exists (ConsoleLog (MReading filePath)
            :: Called (ReadFile filePath) (Resolved content)
            :: ConsoleLog (MFound (length terms)) :: new1').
    split; [reflexivity|].
    change (Story.summaryLines
              (new1' ++ [ConsoleError (MErrorReading (message e))]) = []).
    now rewrite summaryLines_app, Hquiet.
Qed.

(** X11. A batch over a readable file that was not cut short by an
    error captures the terms of the file in their order, each capture
    ending with a saved file or a logged failure, with one pause of
    2000 ms between two captures and none before the first or after the
    last. *)
Theorem batch_story E filePath content st :
  fs st !! filePath = Some (File content) ->
  exists st',
    WikiSniffer.processTermsFromFile E filePath st = (Normal tt, st')
    /\ ((exists msg, In (ConsoleError (MErrorReading msg)) (Trace.added st st'))
        \/ exists os,
             map fst os = WikiSniffer.parseTerms content
             /\ Story.story (Trace.added st st') = Story.batchStory E os).
Proof.
  intros Hfile.
  destruct (batch_anatomy E filePath content st Hfile)
    as (st' & new & Hrun & Htr & H).
  exists st'. split; [exact Hrun|]. rewrite (added_app _ _ _ Htr).
  destruct H as [(msg & before & -> & _)|(os & Hos & Hstory & _)].
  - left. exists msg. apply in_or_app. right. now left.
  - right. eauto.
Qed.

(** Two terms, both captured. *)
Lemma batch_story_witness :
  Story.story
    (Trace.added Sample.withTerms
       (snd (WikiSniffer.processTermsFromFile Sample.calm (JS.lit "terms.txt")
               Sample.withTerms)))
  = [Story.Searched (JS.lit "a"); Story.Saved (JS.lit "a_2026-11-03.png");
     Story.Paused;
     Story.Searched (JS.lit "b"); Story.Saved (JS.lit "b_2026-11-03.png")].
Proof.
  destruct (batch_story Sample.calm (JS.lit "terms.txt")
              (JS.lit "a" ++ [10; 10] ++ JS.lit "b") Sample.withTerms)
    as (st' & Hrun & _).
  - vm_compute. reflexivity.
  - clear Hrun. vm_compute. reflexivity.
Defined.

(** X12. A batch that is cut short by an error ends with the error line
    and prints no line of the summary. Otherwise the summary agrees with
    what happened: the number of terms is the number of captures, the
    successes and the failures add up to it, the files listed are the
    names of the files that were saved, and the terms listed are the
    terms whose capture failed, both in the order of the captures. *)
Theorem batch_summary E filePath content st :
  fs st !! filePath = Some (File content) ->
  exists st',
    WikiSniffer.processTermsFromFile E filePath st = (Normal tt, st')
    /\ ((exists msg before,
           Trace.added st st' = before ++ [ConsoleError (MErrorReading msg)]
           /\ Story.summaryLines (Trace.added st st') = [])
        \/ exists os,
             Story.story (Trace.added st st') = Story.batchStory E os
             /\ Story.summaryLines (Trace.added st st')
                = Story.expectedSummary E os
             /\ length os = length (WikiSniffer.parseTerms content)
             /\ (length (Story.savedNames E os)
                 + length (Story.failedTerms os) = length os)%nat).
Proof.
  intros Hfile.
  destruct (batch_anatomy E filePath content st Hfile)
    as (st' & new & Hrun & Htr & H).
  exists st'. split; [exact Hrun|]. rewrite (added_app _ _ _ Htr).
  destruct H as [H|(os & Hos & Hstory & Hsum)]; [now left|right].
  exists os. repeat split; auto.
  - now rewrite <- Hos, length_map.
  - destruct (endings_in_results E os) as (_ & Hok & Hko & Hadd).
    cbv zeta in Hok, Hko, Hadd.
    now rewrite <- Hok, <- Hko, !length_map.
Qed.

(** Two terms, the first one without a result link. *)
Lemma batch_summary_witness :
  Story.summaryLines
    (Trace.added Sample.withTerms
       (snd (WikiSniffer.processTermsFromFile
               {| cwd := cwd Sample.calm; unicodeLower := unicodeLower Sample.calm;
                  clock := clock Sample.calm;
                  respond := fun h c =>
                    match c, Trace.searched h with
                    | WaitForSelector _ _, [_] =>
                        Rejected {| message := JS.lit "Timeout 10000ms exceeded" |}
                    | _, _ => Resolved []
                    end |}
               (JS.lit "terms.txt") Sample.withTerms)))
  = [MSummary; MRule 50; MSuccessful 1 2; MFailed 1 2;
     MSavedHeader; MBullet (JS.lit "b_2026-11-03.png");
     MFailedHeader; MBullet (JS.lit "a"); MAllDone].
Proof.
  match goal with |- Story.summaryLines (Trace.added _ (snd (_ ?E _ _))) = _ =>
    destruct (batch_summary E (JS.lit "terms.txt")
                (JS.lit "a" ++ [10; 10] ++ JS.lit "b") Sample.withTerms)
      as (st' & Hrun & _)
  end.
  - vm_compute. reflexivity.
  - clear Hrun. vm_compute. reflexivity.
Defined.

End StoryFacts.

(* ===================================================================== *)
(** ** The run as a whole                                                 *)
(* ===================================================================== *)

Section RunFacts.

Ltac next_entry :=
  match goal with
  | |- context [@lookup _ _ (gmap (list N) Node) _ ?k ?m] =>
      destruct (@lookup _ _ (gmap (list N) Node) _ k m) as [[|?]|] eqn:?; run_js
  end.

(** [main] with an argument, part by part. *)
Lemma main_anatomy E input args st :
  WikiSniffer.main E (input :: args) st
  = match WikiSniffer.initialize E (Anatomy.constructed st) with
    | (Normal _, st1) =>
        match Anatomy.dispatch E input st1 with
        | (Normal a, st2) => Anatomy.closing E (Normal a) st2
        | (Thrown e, st2) =>
            Anatomy.closing E (Normal tt)
              {| this := this st2; fs := fs st2;
                 trace := trace st2 ++ [ConsoleError (MFatal e)] |}
        end
    | (Thrown e, st1) =>
        Anatomy.closing E (Normal tt)
          {| this := this st1; fs := fs st1;
             trace := trace st1 ++ [ConsoleError (MFatal e)] |}
    end.
Proof.
  unfold WikiSniffer.main, Anatomy.closing, Anatomy.dispatch,
    Anatomy.constructed.
  unfold bind at 1. unfold setThis, tryFinally.
  unfold tryCatch at 1. unfold bind at 1.
  destruct (WikiSniffer.initialize E _) as [[[]|e] st1]; [|reflexivity].
  destruct (tryCatch _ _ st1) as [[[]|e] st2]; reflexivity.
Qed.

(** [initialize] searches nothing and touches the disk at the output
    path only. *)
Lemma initialize_silent E st :
  exists r st' new,
    WikiSniffer.initialize E st = (r, st')
    /\ trace st' = trace st ++ new
    /\ Trace.searched new = []
    /\ forallb (fun ev => negb (Trace.isCapture ev)) new = true
    /\ existsb Trace.isClose new = false
    /\ (fs st' = fs st
        \/ fs st' = <[WikiSniffer.OUT_DIR E := Dir]> (fs st)
           /\ fs st !! WikiSniffer.OUT_DIR E = None).
Proof.
  destruct st as [[b c p] files tr]. run_js.
  repeat first [next_call | next_entry];
    tidy_trace; do 3 eexists;
    (split; [reflexivity|]); cbn [this fs trace];
    (split; [reflexivity|]); repeat split; auto.
Qed.

(** [close] returns normally unless [browser.close()] was rejected, and
    then it throws that error, right after the call. *)
Lemma close_result E st :
  exists r st' new,
    WikiSniffer.close E st = (r, st')
    /\ this st' = this st /\ fs st' = fs st
    /\ trace st' = trace st ++ new
    /\ Trace.searched new = []
    /\ forallb (fun ev => negb (Trace.isCapture ev)) new = true
    /\ match r with
       | Normal _ => True
       | Thrown e =>
           new = [ConsoleLog MClosing; Called BrowserClose (Rejected e)]
       end.
Proof.
  destruct st as [[[h|] c p] files tr]; run_js.
  - next_call; tidy_trace; do 3 eexists;
      (split; [reflexivity|]); repeat split; reflexivity.
  - exists (Normal tt). do 2 eexists. split; [reflexivity|].
    cbn [this fs trace]. rewrite app_nil_r. repeat split.
Qed.

Lemma dispatch_never_throws E input st :
  exists st' new,
    Anatomy.dispatch E input st = (Normal tt, st')
    /\ this st' = this st /\ trace st' = trace st ++ new.
Proof.
  destruct (dispatch_frame E input st) as (st' & new & Hrun & Hthis & Htr & _).
  now exists st', new.
Qed.


Lemma dispatch_directory E input st :
  fs st !! input = Some Dir ->
  Anatomy.dispatch E input st
  = (Normal tt,
     {| this := this st; fs := fs st;
        trace := trace st
                 ++ [Called (Access input) (Resolved []);
                     ConsoleLog (MReading input);
                     Called (ReadFile input) (Rejected EISDIR);
                     ConsoleError (MErrorReading (message EISDIR))] |}).
Proof.
  destruct st as [s files tr]. cbn [fs this trace]. intros Hdir.
  unfold Anatomy.dispatch, WikiSniffer.processTermsFromFile. run_js.
  rewrite Hdir. run_js. rewrite Hdir. run_js. tidy_trace. reflexivity.
Qed.

(** What the [finally] block and the top level add to a body that ended
    normally in [st2]: nothing but the close, and the log of its error. *)
Lemma script_ending E (st2 : State) :
  exists st' new,
    (match Anatomy.closing E (Normal tt) st2 with
     | (Normal a, st') => (Normal a, st')
     | (Thrown e, st') => consoleError (MUncaught e) st'
     end) = (Normal tt, st')
    /\ fs st' = fs st2
    /\ trace st' = trace st2 ++ new
    /\ Trace.searched new = []
    /\ forallb (fun ev => negb (Trace.isCapture ev)) new = true.
Proof.
  unfold Anatomy.closing.
  destruct (close_result E st2)
    as (r & st3 & new & Hc & _ & Hfs & Htr & Hs & Hcap & Hr).
  rewrite Hc. destruct r as [[]|e].
  - exists st3, new. auto.
  - unfold consoleError, emit. subst new.
    eexists _, [ConsoleLog MClosing; Called BrowserClose (Rejected e);
                ConsoleError (MUncaught e)].
    split; [reflexivity|]. cbn [fs trace].
    split; [exact Hfs|]. split; [rewrite Htr; now rewrite <- app_assoc|].
    split; reflexivity.
Qed.

(** X13. Whenever [initialize] throws (no browser, no context, no page,
    or no output directory), the error is logged as fatal, no page is
    driven and nothing is searched; the script still exits with
    code 0. *)
Theorem initialize_failure_is_fatal E input args st e st1 :
  WikiSniffer.initialize E (Anatomy.constructed st) = (Thrown e, st1) ->
  exists st',
    WikiSniffer.script E (input :: args) st = (0, st')
    /\ In (ConsoleError (MFatal e)) (Trace.added st st')
    /\ Trace.searched (Trace.added st st') = []
    /\ forallb (fun ev => negb (Trace.isCapture ev)) (Trace.added st st') = true
    /\ fs st' = fs st1.
Proof.
  intros Hinit. unfold WikiSniffer.script, tryCatch.
  rewrite main_anatomy, Hinit.
  destruct (initialize_silent E (Anatomy.constructed st))
    as (r & st1' & new1 & Hrun & Htr1 & Hs1 & Hc1 & _).
  rewrite Hinit in Hrun. injection Hrun as <- <-. cbn [trace Anatomy.constructed] in Htr1.
  match goal with |- context [Anatomy.closing E (Normal tt) ?s] =>
    destruct (script_ending E s) as (st' & new2 & Hend & Hfs & Htr2 & Hs2 & Hc2)
  end.
  cbn [fs trace] in Hfs, Htr2.
  exists st'. split; [now rewrite Hend|].
  rewrite added_app
    with (new := new1 ++ [ConsoleError (MFatal e)] ++ new2)
    by (rewrite Htr2, Htr1; now rewrite <- !app_assoc).
  split; [apply in_or_app; right; now left|].
  split; [now rewrite !searched_app, Hs1, Hs2|].
  split; [now rewrite !forallb_app, Hc1, Hc2|exact Hfs].
Qed.

(** No browser can be launched. *)
Lemma initialize_failure_is_fatal_witness :
  Trace.searched
    (Trace.added Sample.empty
       (snd (WikiSniffer.script MoreSamples.noBrowser [JS.lit "Boxing"]
               Sample.empty)))
  = [].
Proof.
  destruct (initialize_failure_is_fatal MoreSamples.noBrowser (JS.lit "Boxing")
              [] Sample.empty
              {| message := JS.lit "Executable doesn't exist" |}
              (snd (WikiSniffer.initialize MoreSamples.noBrowser
                      (Anatomy.constructed Sample.empty))))
    as (st' & Hrun & _ & Hs & _).
  - vm_compute. reflexivity.
  - now rewrite Hrun.
Defined.

(** X14. The script always exits with code 0, and the only error that
    escapes [main] is the error of a rejected [browser.close()], thrown
    right after that call. *)
Theorem only_close_escapes_main E args st :
  fst (WikiSniffer.script E args st) = 0
  /\ forall e st',
       WikiSniffer.main E args st = (Thrown e, st') ->
       exists before,
         Trace.added st st'
         = before ++ [ConsoleLog MClosing; Called BrowserClose (Rejected e)].
Proof.
  split.
  { unfold WikiSniffer.script, tryCatch.
    now destruct (WikiSniffer.main E args st) as [[[]|e] st']. }
  intros e st'. destruct args as [|input args]; [discriminate|].
  rewrite main_anatomy.
  destruct (initialize_silent E (Anatomy.constructed st))
    as (r1 & st1 & new1 & Hinit & Htr1 & _).
  rewrite Hinit. cbn [trace Anatomy.constructed] in Htr1.
  assert (Hclose : forall (s : State) mid,
            trace s = trace st ++ mid ->
            Anatomy.closing E (Normal tt) s = (Thrown e, st') ->
            exists before,
              Trace.added st st'
              = before ++ [ConsoleLog MClosing; Called BrowserClose (Rejected e)]).
  { intros s mid Hs. unfold Anatomy.closing.
    destruct (close_result E s) as (r & s' & new & Hc & _ & _ & Htr & _ & _ & Hr).
    rewrite Hc. destruct r as [[]|e']; [discriminate|].
    intros [= <- <-]. subst new. exists mid.
    apply added_app. now rewrite Htr, Hs, <- app_assoc. }
  destruct r1 as [[]|e1].
  - destruct (dispatch_never_throws E input st1) as (st2 & new2 & Hd & _ & Htr2).
    rewrite Hd. apply (Hclose st2 (new1 ++ new2)).
    now rewrite Htr2, Htr1, <- app_assoc.
  - apply (Hclose _ (new1 ++ [ConsoleError (MFatal e1)])).
    cbn [trace]. now rewrite Htr1, <- app_assoc.
Qed.

(** A browser that does not close. *)
Lemma only_close_escapes_main_witness :
  exists before,
    Trace.added Sample.empty
      (snd (WikiSniffer.main MoreSamples.stuck [JS.lit "Boxing"] Sample.empty))
    = before ++ [ConsoleLog MClosing;
                 Called BrowserClose
                   (Rejected {| message := JS.lit "Browser closed unexpectedly" |})].
Proof.
  destruct (only_close_escapes_main MoreSamples.stuck [JS.lit "Boxing"]
              Sample.empty) as [_ H].
  apply H. vm_compute. reflexivity.
Defined.



(** X16. An argument that names a directory is taken for a terms file:
    no page is driven and nothing is searched, the argument itself
    included. *)
Theorem directory_argument_is_not_searched E input args st :
  fs st !! input = Some Dir ->
  exists r st',
    WikiSniffer.main E (input :: args) st = (r, st')
    /\ Trace.searched (Trace.added st st') = []
    /\ forallb (fun ev => negb (Trace.isCapture ev)) (Trace.added st st') = true.
Proof.
  intros Hdir. rewrite main_anatomy.
  destruct (initialize_silent E (Anatomy.constructed st))
    as (r1 & st1 & new1 & Hinit & Htr1 & Hs1 & Hc1 & _ & Hfs).
  rewrite Hinit. cbn [trace fs Anatomy.constructed] in Htr1, Hfs.
  assert (Hend : forall (s : State) mid,
            trace s = trace st ++ mid ->
            Trace.searched mid = [] ->
            forallb (fun ev => negb (Trace.isCapture ev)) mid = true ->
            exists r st',
              Anatomy.closing E (Normal tt) s = (r, st')
              /\ Trace.searched (Trace.added st st') = []
              /\ forallb (fun ev => negb (Trace.isCapture ev))
                   (Trace.added st st') = true).
  { intros s mid Hs Hsm Hcm. unfold Anatomy.closing.
    destruct (close_result E s)
      as (r & s' & new & Hc & _ & _ & Htr & Hsn & Hcn & _).
    rewrite Hc.
    exists (match r with Normal _ => Normal tt | Thrown e => Thrown e end), s'.
    split; [now destruct r|].
    rewrite added_app with (new := mid ++ new)
      by (rewrite Htr, Hs; now rewrite <- app_assoc).
    now rewrite searched_app, forallb_app, Hsm, Hsn, Hcm, Hcn. }
  destruct r1 as [[]|e1].
  - assert (Hdir1 : fs st1 !! input = Some Dir).
    { destruct Hfs as [->|[-> Hno]]; [exact Hdir|].
      destruct (decide (WikiSniffer.OUT_DIR E = input)) as [<-|Hne].
      - apply lookup_insert_eq.
      - now rewrite lookup_insert_ne. }
    rewrite (dispatch_directory E input st1 Hdir1).
    eapply Hend.
    + cbn [trace]. rewrite Htr1, <- app_assoc. reflexivity.
    + now rewrite searched_app, Hs1.
    + now rewrite forallb_app, Hc1.
  - eapply Hend.
    + cbn [trace]. rewrite Htr1, <- app_assoc. reflexivity.
    + now rewrite searched_app, Hs1.
    + now rewrite forallb_app, Hc1.
Qed.

(** The directory [notes] as argument. *)
Lemma directory_argument_is_not_searched_witness :
  Trace.searched
    (Trace.added MoreSamples.withDirectory
       (snd (WikiSniffer.main Sample.calm [JS.lit "notes"]
               MoreSamples.withDirectory)))
  = [].
Proof.
  destruct (directory_argument_is_not_searched Sample.calm (JS.lit "notes") []
              MoreSamples.withDirectory)
    as (r & st' & Hrun & Hs & _).
  - vm_compute. reflexivity.
  - now rewrite Hrun.
Defined.

End RunFacts.

(* ===================================================================== *)
(** ** What a capture and the directory step leave alone                  *)
(* ===================================================================== *)

Section FrameFacts.

(** The capture of "Boxing" when every call resolves. *)
Lemma capture_truthy_witness :
  JS.truthy
    (Some (WikiSniffer.filepath Sample.calm (JS.lit "Boxing") Sample.today))
  = true.
Proof.
  apply (capture_truthy Sample.calm (JS.lit "Boxing") Sample.started
           (Some (WikiSniffer.filepath Sample.calm (JS.lit "Boxing") Sample.today))
           (snd (WikiSniffer.searchAndCapture Sample.calm (JS.lit "Boxing")
                   Sample.started))).
  vm_compute. reflexivity.
Defined.

(** The directory step on an empty disk, twice. *)
Lemma ensureOutDir_idempotent_witness :
  exists st2,
    WikiSniffer.ensureOutDir Sample.calm
      (snd (WikiSniffer.ensureOutDir Sample.calm Sample.empty))
    = (Normal tt, st2)
    /\ fs st2 = fs (snd (WikiSniffer.ensureOutDir Sample.calm Sample.empty))
    /\ Trace.added (snd (WikiSniffer.ensureOutDir Sample.calm Sample.empty)) st2
       = [Called (Access (WikiSniffer.OUT_DIR Sample.calm)) (Resolved [])].
Proof.
  apply (ensureOutDir_idempotent Sample.calm Sample.empty).
  vm_compute. reflexivity.
Defined.

(** [initialize] on an empty disk. *)
Lemma initialize_ensures_directory_witness :
  fs (snd (WikiSniffer.initialize Sample.calm Sample.empty))
    !! WikiSniffer.OUT_DIR Sample.calm
  = Some Dir.
Proof.
  apply (initialize_ensures_directory Sample.calm Sample.empty).
  - intros content. vm_compute. discriminate.
  - vm_compute. reflexivity.
Defined.

(** X21. A capture keeps to itself: it leaves the sniffer as it was,
    starts one search, neither launches nor closes a browser nor creates
    a directory, and writes at most one file, at the path it returns or,
    when it returns none, at the path of the error screenshot. *)
Theorem capture_is_self_contained E t st :
  exists result st',
    WikiSniffer.searchAndCapture E t st = (Normal result, st')
    /\ this st' = this st
    /\ Trace.searched (Trace.added st st') = [t]
    /\ forallb Trace.isQuiet (Trace.added st st') = true
    /\ forall p,
         p <> match result with
              | Some q => q
              | None => WikiSniffer.errorFilepath E t
              end ->
         fs st' !! p = fs st !! p.
Proof.
  destruct (searchAndCapture_outcome E t st)
    as (result & st' & new & Hrun & Htr & H).
  pose proof (searchAndCapture_frame E t st) as Hframe.
  rewrite Hrun in Hframe.
  destruct Hframe as (Hthis & new' & Htr' & Hs & Hq & _).
  assert (new' = new) as -> by (rewrite Htr in Htr'; now apply app_inv_head in Htr').
  exists result, st'. rewrite (added_app _ _ _ Htr).
  repeat split; auto.
  intros p Hp. destruct result as [q|].
  - destruct H as (date & img & _ & -> & _). now rewrite lookup_insert_ne.
  - destruct H as (_ & _ & _ & [[_ ->]|(img & _ & ->)] & _); [reflexivity|].
    now rewrite lookup_insert_ne.
Qed.

Lemma trimStart_pad a s :
  Spec.blank a = true -> JS.trimStart (a ++ s) = JS.trimStart s.
Proof.
  unfold Spec.blank. induction a as [|c a IH]; simpl; [reflexivity|].
  intros H. apply andb_true_iff in H as [-> Ha]. now apply IH.
Qed.

Lemma trimStart_tail s b :
  Spec.blank s = false -> JS.trimStart (s ++ b) = JS.trimStart s ++ b.
Proof.
  unfold Spec.blank. induction s as [|c s IH]; simpl; [discriminate|].
  destruct (JS.isWhiteSpace c); simpl; [exact IH|reflexivity].
Qed.

Lemma trim_pad a s b :
  Spec.blank a = true -> Spec.blank b = true ->
  JS.trim (a ++ s ++ b) = JS.trim s.
Proof.
  intros Ha Hb. unfold JS.trim, JS.trimEnd.
  rewrite (trimStart_pad a _ Ha).
  destruct (Spec.blank s) eqn:Hs.
  - assert (Hsb : Spec.blank (s ++ b) = true)
      by (unfold Spec.blank in *; now rewrite forallb_app, Hs, Hb).
    apply trimStart_nil in Hsb. apply trimStart_nil in Hs.
    now rewrite Hsb, Hs.
  - rewrite (trimStart_tail s b Hs), rev_app_distr.
    rewrite trimStart_pad; [reflexivity|].
    unfold Spec.blank in *. now rewrite forallb_rev.
Qed.

(** X22. White space around a line does not change the terms of a file:
    indentation, trailing blanks and the carriage returns of CRLF line
    ends are all dropped. *)
Theorem parseTerms_ignores_padding (padded : list (jsstring * jsstring * jsstring)) :
  Forall (fun '(before, line, after) =>
            Spec.blank before = true /\ Spec.blank after = true
            /\ ~ In 10 (before ++ line ++ after)) padded ->
  WikiSniffer.parseTerms
    (JS.join [10] (map (fun '(before, line, after) => before ++ line ++ after)
                     padded))
  = WikiSniffer.parseTerms
      (JS.join [10] (map (fun '(before, line, after) => line) padded)).
Proof.
  intros Hall. destruct padded as [|p ps]; [reflexivity|].
  unfold WikiSniffer.parseTerms. rewrite !split_join; try discriminate.
  - f_equal. rewrite !map_map.
    induction Hall as [|[[a l] b] qs (Ha & Hb & _) _ IH]; [reflexivity|].
    simpl. now rewrite trim_pad, IH.
  - induction Hall as [|[[a l] b] qs (_ & _ & Hn) _ IH]; constructor; auto.
    intros Hin. apply Hn. apply in_or_app. right. apply in_or_app. now left.
  - induction Hall as [|[[a l] b] qs (_ & _ & Hn) _ IH]; constructor; auto.
Qed.

(** A file with CRLF line ends and an indented line. *)
Lemma parseTerms_ignores_padding_witness :
  WikiSniffer.parseTerms
    (JS.join [10]
       (map (fun '(before, line, after) => before ++ line ++ after)
          [([], JS.lit "Boxing", [13]);
           ([32; 32], JS.lit "black holes", [13])]))
  = [JS.lit "Boxing"; JS.lit "black holes"].
Proof.
  rewrite (parseTerms_ignores_padding
             [([], JS.lit "Boxing", [13]);
              ([32; 32], JS.lit "black holes", [13])]).
  - reflexivity.
  - repeat constructor;
      vm_compute; intros H; repeat (destruct H as [H|H]; [discriminate|]);
      exact H.
Defined.

End FrameFacts.
